(** * lesson_12: a command-line contact manager

    A shallow embedding of [lesson_12.py] and the properties of its record
    model, its birthday arithmetic, its batched iterator and its command
    layer.

    Conventions of the embedding.
    - A Python [str] is a [string]: a sequence of code points below 256
      (Latin-1).  On that range [\d] is exactly ['0'..'9'] and the white
      space of [str.split] is the set listed in [isspace].
    - A Python object that is mutated in place is modelled by explicit state
      passing.  A raised exception does not undo the writes made before it,
      so a computation returns its result together with the state it leaves
      behind ([M]).
    - [datetime.now().date()] is an argument, [today].
    - [save_to_file] and [load_from_file] (pickle and the file system) are
      not part of the embedding. *)

From Stdlib Require Import ZArith List String Ascii Bool Lia.
Import ListNotations.

Set Implicit Arguments.

Local Open Scope list_scope.
Local Open Scope string_scope.

(** * Exceptions and results *)

(** The exception classes the program raises or catches.  [AttributeError]
    is one [input_error] has no handler for. *)
Inductive exn : Type :=
| KeyError
| ValueError
| IndexError
| AttributeError.

Inductive result (A : Type) : Type :=
| Ok (a : A)
| Raise (e : exn).

Arguments Ok {A} a.
Arguments Raise {A} e.

(** A computation over a mutable object of type [S]. *)
Definition M (S A : Type) : Type := S -> result A * S.

Definition ret {S A : Type} (a : A) : M S A := fun s => (Ok a, s).

Definition raise {S A : Type} (e : exn) : M S A := fun s => (Raise e, s).

Definition bind {S A B : Type} (c : M S A) (k : A -> M S B) : M S B :=
  fun s =>
    match c s with
    | (Ok a, s') => k a s'
    | (Raise e, s') => (Raise e, s')
    end.

Definition get {S : Type} : M S S := fun s => (Ok s, s).

Definition put {S : Type} (s : S) : M S unit := fun _ => (Ok tt, s).

(** An expression that touches no state: it evaluates or raises. *)
Definition lift {S A : Type} (r : result A) : M S A := fun s => (r, s).

Declare Scope py_scope.
Delimit Scope py_scope with py.

Notation "x <- c ;; k" := (bind c (fun x => k))
  (at level 100, c at next level, right associativity) : py_scope.
Notation "c ;;; k" := (bind c (fun _ => k))
  (at level 100, right associativity) : py_scope.

(** [result] on its own, for constructors: a constructor that raises leaves
    no object behind. *)
Definition rbind {A B : Type} (r : result A) (k : A -> result B) : result B :=
  match r with
  | Ok a => k a
  | Raise e => Raise e
  end.

(** * Strings *)

Module Str.

Definition code (c : ascii) : N := N_of_ascii c.

Definition between (lo hi : N) (c : ascii) : bool :=
  (N.leb lo (code c) && N.leb (code c) hi)%bool.

(** [str.isspace] on one code point below 256. *)
Definition isspace (c : ascii) : bool :=
  (between 9 13 c || between 28 32 c || N.eqb (code c) 133 || N.eqb (code c) 160)%bool.

(** [str.isdecimal], what [\d] tests: below 256 the decimal digits are
    ['0'..'9'].  Python's [\d], [strptime] and [int] also take the decimal
    digits of other scripts, which a [string] cannot hold: what is proved
    of digits is proved of strings of code points below 256. *)
Definition isdigit (c : ascii) : bool := between 48 57 c.

(** [str.lower] on one code point below 256: [A-Z] and the Latin-1 capitals
    (all of 192..222 but the multiplication sign 215). *)
Definition lower_char (c : ascii) : ascii :=
  if (between 65 90 c || (between 192 222 c && negb (N.eqb (code c) 215)))%bool
  then ascii_of_N (code c + 32)
  else c.

Fixpoint lower (s : string) : string :=
  match s with
  | EmptyString => EmptyString
  | String c s' => String (lower_char c) (lower s')
  end.

(** [s.startswith(prefix)] *)
Definition startswith (s pre : string) : bool := String.prefix pre s.

(** [s.split()]: the maximal runs of characters that are not white space.
    [cur] is the run being read. *)
Fixpoint split_from (cur : string) (s : string) : list string :=
  match s with
  | EmptyString => if String.eqb cur "" then [] else [cur]
  | String c s' =>
      if isspace c
      then if String.eqb cur "" then split_from "" s' else cur :: split_from "" s'
      else split_from (cur ++ String c "") s'
  end.

Definition split (s : string) : list string := split_from "" s.

(** [sep.join(l)] *)
Fixpoint join (sep : string) (l : list string) : string :=
  match l with
  | [] => ""
  | [x] => x
  | x :: rest => x ++ sep ++ join sep rest
  end.

End Str.

(** * The part of [re] the program uses *)

Module re.

(** The pattern constructs that occur in the two patterns of the program. *)
Inductive pattern : Type :=
| Bol                              (* ^ *)
| Eol                              (* $ *)
| Chr (c : ascii)                  (* an escaped literal: \+ \. *)
| Digit                            (* \d *)
| Opt (p : pattern)                (* p? *)
| Rep (lo hi : nat) (p : pattern)  (* p{lo,hi} *)
| Seq (p q : pattern).

(** At most [n] more rounds of [step], of which [lo] are still owed; the
    longer alternative is tried first, as a greedy quantifier does. *)
Fixpoint rep (step : (nat -> string -> bool) -> nat -> string -> bool)
    (lo n : nat) (k : nat -> string -> bool) (pos : nat) (s : string) : bool :=
  match n with
  | O => match lo with O => k pos s | S _ => false end
  | S n' =>
      (step (rep step (Nat.pred lo) n' k) pos s
       || match lo with O => k pos s | S _ => false end)%bool
  end.

(** A backtracking matcher: [p] matches at offset [pos], where [s] is what
    is left of the subject, and [k] matches what follows.  Without
    [re.MULTILINE], [^] matches at offset 0 only, and [$] matches at the end
    of the subject and just before a newline that ends it. *)
Fixpoint exec (p : pattern) (k : nat -> string -> bool) (pos : nat) (s : string) : bool :=
  match p with
  | Bol => match pos with O => k pos s | S _ => false end
  | Eol => ((String.eqb s "" || String.eqb s (String "010" "")) && k pos s)%bool
  | Chr c =>
      match s with
      | String c' s' => (Ascii.eqb c c' && k (S pos) s')%bool
      | EmptyString => false
      end
  | Digit =>
      match s with
      | String c' s' => (Str.isdigit c' && k (S pos) s')%bool
      | EmptyString => false
      end
  | Opt q => (exec q k pos s || k pos s)%bool
  | Rep lo hi q => rep (exec q) lo hi k pos s
  | Seq q r => exec q (exec r k) pos s
  end.

(** [re.match(p, s)] as a truth value: a match object or [None].  The match
    is anchored at the start of [s] and may end anywhere. *)
Definition match_ (p : pattern) (s : string) : bool :=
  exec p (fun _ _ => true) 0 s.

End re.

(** * Fields *)

(** [class Name(Field)] *)
Module Name.

Record t : Type := { value : string }.

(** [Name.__init__]: [if not value: raise ValueError]. *)
Definition __init__ (v : string) : result t :=
  if String.eqb v "" then Raise ValueError else Ok {| value := v |}.

(** [Field.__str__] with the class name [Name]. *)
Definition __str__ (self : t) : string := "Name: " ++ value self.

End Name.

(** [class Phone(Field)] *)
Module Phone.

Record t : Type := { _value : string }.

(** The property [value]: the getter reads [_value]. *)
Definition value (self : t) : string := _value self.

(** [r"^\+?\d{9,15}$"] *)
Definition PATTERN : re.pattern :=
  re.Seq re.Bol (re.Seq (re.Opt (re.Chr "+")) (re.Seq (re.Rep 9 15 re.Digit) re.Eol)).

(** [Phone.validate] *)
Definition validate : M t unit :=
  fun self =>
    if negb (re.match_ PATTERN (value self))
    then (Raise ValueError, self)
    else (Ok tt, self).

(** The setter of [value]: it stores first and validates after. *)
Definition set_value (v : string) : M t unit :=
  (put {| _value := v |} ;;; validate)%py.

(** [Phone.__init__]: [Field.__init__] assigns [self.value], which runs the
    setter on the new object.  When the setter raises, the constructor call
    raises and the object is dropped. *)
Definition __init__ (v : string) : result t :=
  match set_value v {| _value := "" |} with
  | (Ok _, self) => Ok self
  | (Raise e, _) => Raise e
  end.

Definition __str__ (self : t) : string := "Phone: " ++ value self.

End Phone.

(** * The part of [datetime] the program uses *)

Module datetime.

Local Open Scope Z_scope.

(** A [date]: the proleptic Gregorian calendar, as [datetime.date]. *)
Record date : Type := { year : Z; month : Z; day : Z }.

Definition MINYEAR : Z := 1.
Definition MAXYEAR : Z := 9999.

(** [_is_leap] *)
Definition _is_leap (y : Z) : bool :=
  ((y mod 4 =? 0) && (negb (y mod 100 =? 0) || (y mod 400 =? 0)))%bool.

(** [_days_before_year]: the days before January 1st of year [y]. *)
Definition _days_before_year (y : Z) : Z :=
  let y' := y - 1 in y' * 365 + y' / 4 - y' / 100 + y' / 400.

(** [_DAYS_IN_MONTH] *)
Definition _DAYS_IN_MONTH (m : Z) : Z :=
  match m with
  | 1 => 31 | 2 => 28 | 3 => 31 | 4 => 30 | 5 => 31 | 6 => 30
  | 7 => 31 | 8 => 31 | 9 => 30 | 10 => 31 | 11 => 30 | 12 => 31
  | _ => -1
  end.

(** [_DAYS_BEFORE_MONTH] *)
Definition _DAYS_BEFORE_MONTH (m : Z) : Z :=
  match m with
  | 1 => 0 | 2 => 31 | 3 => 59 | 4 => 90 | 5 => 120 | 6 => 151
  | 7 => 181 | 8 => 212 | 9 => 243 | 10 => 273 | 11 => 304 | 12 => 334
  | _ => -1
  end.

(** [_days_in_month] *)
Definition _days_in_month (y m : Z) : Z :=
  if ((m =? 2) && _is_leap y)%bool then 29 else _DAYS_IN_MONTH m.

(** [_days_before_month] *)
Definition _days_before_month (y m : Z) : Z :=
  _DAYS_BEFORE_MONTH m + (if ((2 <? m) && _is_leap y)%bool then 1 else 0).

(** [_ymd2ord]: January 1st of year 1 is day 1. *)
Definition _ymd2ord (y m d : Z) : Z :=
  _days_before_year y + _days_before_month y m + d.

Definition toordinal (a : date) : Z := _ymd2ord (year a) (month a) (day a).

(** The test of [_check_date_fields]. *)
Definition fields_ok (y m d : Z) : bool :=
  ((MINYEAR <=? y) && (y <=? MAXYEAR) && (1 <=? m) && (m <=? 12)
   && (1 <=? d) && (d <=? _days_in_month y m))%bool.

(** [datetime(y, m, d).date()]: the constructor raises [ValueError] on
    fields that are no date. *)
Definition new (y m d : Z) : result date :=
  if fields_ok y m d then Ok {| year := y; month := m; day := d |}
  else Raise ValueError.

(** [a < b]: dates compare as the tuples (year, month, day). *)
Definition ltb (a b : date) : bool :=
  ((year a <? year b)
   || ((year a =? year b)
       && ((month a <? month b)
           || ((month a =? month b) && (day a <? day b)))))%bool.

(** [(a - b).days] *)
Definition sub_days (a b : date) : Z := toordinal a - toordinal b.

(** Decimal digits, for [strftime] and [strptime]. *)
Definition digit_char (n : Z) : ascii := ascii_of_N (48 + Z.to_N (n mod 10)).

Definition digit_val (c : ascii) : Z := Z.of_N (Str.code c) - 48.

Definition pad2 (n : Z) : string :=
  String (digit_char (n / 10)) (String (digit_char n) "").

Definition pad4 (n : Z) : string :=
  String (digit_char (n / 1000)) (String (digit_char (n / 100)) (pad2 n)).

(** [d.strftime('%d.%m.%Y')]: day and month on two digits, the year on
    four.  For a year below 1000 the C library decides whether [%Y] pads,
    and some do not; the properties that read the text of a year are stated
    for years of four digits. *)
Definition strftime (a : date) : string :=
  pad2 (day a) ++ "." ++ pad2 (month a) ++ "." ++ pad4 (year a).

(** [datetime.strptime(s, '%d.%m.%Y').date()], as far as the setter of
    [Birthday] needs it: on the strings that start with two digits, a dot,
    two digits, a dot and four digits.  The directives must use up the whole
    string, [%d] reads 01..31, [%m] reads 01..12, and the fields must make a
    date; anything else is a [ValueError]. *)
Definition strptime (s : string) : result date :=
  match s with
  | String d1 (String d2 (String p1 (String m1 (String m2 (String p2
      (String y1 (String y2 (String y3 (String y4 EmptyString))))))))) =>
      let d := 10 * digit_val d1 + digit_val d2 in
      let m := 10 * digit_val m1 + digit_val m2 in
      let y := 1000 * digit_val y1 + 100 * digit_val y2
               + 10 * digit_val y3 + digit_val y4 in
      if (forallb Str.isdigit [d1; d2; m1; m2; y1; y2; y3; y4]
          && Ascii.eqb p1 "." && Ascii.eqb p2 "."
          && (1 <=? d) && (d <=? 31) && (1 <=? m) && (m <=? 12))%bool
      then new y m d
      else Raise ValueError
  | _ => Raise ValueError
  end.

End datetime.

(** [class Birthday(Field)] *)
Module Birthday.

(** [_value] is [None] or a date. *)
Record t : Type := { _value : option datetime.date }.

Definition value (self : t) : option datetime.date := _value self.

(** [r"\d{2}\.\d{2}\.\d{4}"] *)
Definition PATTERN : re.pattern :=
  re.Seq (re.Rep 2 2 re.Digit)
    (re.Seq (re.Chr ".")
       (re.Seq (re.Rep 2 2 re.Digit) (re.Seq (re.Chr ".") (re.Rep 4 4 re.Digit)))).

(** The setter of [value].  [today] is [datetime.now().date()]: the parsed
    date is a midnight, so it is after [datetime.now()] exactly when its day
    is after today. *)
Definition set_value (today : datetime.date) (new_value : string) : M t unit :=
  fun self =>
    if negb (re.match_ PATTERN new_value) then (Raise ValueError, self)
    else
      match datetime.strptime new_value with
      | Raise e => (Raise e, self)
      | Ok date =>
          if datetime.ltb today date then (Raise ValueError, self)
          else (Ok tt, {| _value := Some date |})
      end.

(** [Birthday.__init__]: [if value:] skips [None] and the empty string. *)
Definition __init__ (today : datetime.date) (v : option string) : result t :=
  let self := {| _value := None |} in
  match v with
  | None => Ok self
  | Some s =>
      if String.eqb s "" then Ok self
      else
        match set_value today s self with
        | (Ok _, self') => Ok self'
        | (Raise e, _) => Raise e
        end
  end.

(** [Birthday.days_to_birthday].  A date is always true, so [not
    self._value] holds for [None] only. *)
Definition days_to_birthday (today : datetime.date) (self : t) : result (option Z) :=
  match _value self with
  | None => Ok None
  | Some v =>
      rbind (datetime.new (datetime.year today) (datetime.month v) (datetime.day v))
        (fun next_birthday =>
           rbind
             (if datetime.ltb next_birthday today
              then datetime.new (datetime.year today + 1)
                     (datetime.month v) (datetime.day v)
              else Ok next_birthday)
             (fun next_birthday => Ok (Some (datetime.sub_days next_birthday today))))
  end.

(** [Birthday.__str__]: [None] has no [strftime]. *)
Definition __str__ (self : t) : result string :=
  match value self with
  | Some d => Ok ("Birthday: " ++ datetime.strftime d)
  | None => Raise AttributeError
  end.

End Birthday.

(** * Records *)

(** [class Record] *)
Module Record.

Record t : Type := {
  name : Name.t;
  phones : list Phone.t;
  birthday : Birthday.t
}.

Definition set_phones (ps : list Phone.t) (self : t) : t :=
  {| name := name self; phones := ps; birthday := birthday self |}.

(** [Record.add_phone]: the new [Phone] is built (and so validated), is
    validated once more, and is appended. *)
Definition add_phone (phone : string) : M t unit :=
  fun self =>
    match Phone.__init__ phone with
    | Raise e => (Raise e, self)
    | Ok phone_obj =>
        match Phone.validate phone_obj with
        | (Raise e, _) => (Raise e, self)
        | (Ok _, phone_obj') => (Ok tt, set_phones (phones self ++ [phone_obj']) self)
        end
    end.

(** [Record.__init__].  [self.birthday] is assigned last; until then the
    field holds the unset birthday, which [add_phone] does not read. *)
Definition __init__ (today : datetime.date) (name : string)
    (phone birthday : option string) : result t :=
  rbind (Name.__init__ name) (fun n =>
    let self := {| name := n; phones := []; birthday := {| Birthday._value := None |} |} in
    rbind
      (match phone with
       | None => Ok self
       | Some p =>
           if String.eqb p "" then Ok self
           else match add_phone p self with
                | (Ok _, self') => Ok self'
                | (Raise e, _) => Raise e
                end
       end)
      (fun self =>
         rbind (Birthday.__init__ today birthday) (fun b =>
           Ok {| name := Record.name self; phones := phones self; birthday := b |}))).

(** The loop of [remove_phone]: the first phone whose value is [phone] is
    removed. *)
Fixpoint remove_first (phone : string) (ps : list Phone.t) : bool * list Phone.t :=
  match ps with
  | [] => (false, [])
  | p :: rest =>
      if String.eqb (Phone.value p) phone then (true, rest)
      else let (found, rest') := remove_first phone rest in (found, p :: rest')
  end.

(** [Record.remove_phone] *)
Definition remove_phone (phone : string) : M t bool :=
  fun self =>
    let (found, ps) := remove_first phone (phones self) in
    (Ok found, set_phones ps self).

(** The loop of [edit_phone]: the setter runs on the first phone whose value
    is [old_phone], in place; what the setter stored stays in the list when
    it raises. *)
Fixpoint edit_first (old_phone new_phone : string) (ps : list Phone.t)
    : result bool * list Phone.t :=
  match ps with
  | [] => (Ok false, [])
  | p :: rest =>
      if String.eqb (Phone.value p) old_phone
      then match Phone.set_value new_phone p with
           | (Ok _, p') => (Ok true, p' :: rest)
           | (Raise e, p') => (Raise e, p' :: rest)
           end
      else let (r, rest') := edit_first old_phone new_phone rest in (r, p :: rest')
  end.

(** [Record.edit_phone] *)
Definition edit_phone (old_phone new_phone : string) : M t bool :=
  fun self =>
    let (r, ps) := edit_first old_phone new_phone (phones self) in
    (r, set_phones ps self).

(** [Record.__str__] *)
Definition __str__ (self : t) : result string :=
  let phones := Str.join ", " (map Phone.__str__ (phones self)) in
  rbind
    (match Birthday.value (birthday self) with
     | Some _ => rbind (Birthday.__str__ (birthday self)) (fun b => Ok (", " ++ b))
     | None => Ok ""
     end)
    (fun birthday_str => Ok (Name.__str__ (name self) ++ ", " ++ phones ++ birthday_str)).

End Record.

(** * The address book *)

(** [class AddressBook(UserDict)] *)
Module AddressBook.

(** [self.data]: a [dict], its items in insertion order, no key twice. *)
Definition t : Type := list (string * Record.t).

(** [self.data[key] = item]: a key that is present keeps its place. *)
Fixpoint setitem (key : string) (item : Record.t) (data : t) : t :=
  match data with
  | [] => [(key, item)]
  | (k, v) :: rest =>
      if String.eqb k key then (k, item) :: rest
      else (k, v) :: setitem key item rest
  end.

Fixpoint lookup (key : string) (data : t) : option Record.t :=
  match data with
  | [] => None
  | (k, v) :: rest => if String.eqb k key then Some v else lookup key rest
  end.

(** [key in self] *)
Definition contains (key : string) (data : t) : bool :=
  match lookup key data with Some _ => true | None => false end.

(** [self[key]] *)
Definition getitem (key : string) : M t Record.t :=
  fun self =>
    match lookup key self with
    | Some v => (Ok v, self)
    | None => (Raise KeyError, self)
    end.

(** [AddressBook.add_record] *)
Definition add_record (record : Record.t) : M t unit :=
  fun self => (Ok tt, setitem (Name.value (Record.name record)) record self).

(** Runs [c] on the record stored under [key], in place: the record is
    shared with the book, so what [c] leaves of it is what the book holds,
    also when [c] raises. *)
Definition at_record {A : Type} (key : string) (c : M Record.t A) : M t A :=
  fun self =>
    match lookup key self with
    | None => (Raise KeyError, self)
    | Some record => let (r, record') := c record in (r, setitem key record' self)
    end.

(** [[str(record) for record in l]] *)
Fixpoint render (l : list Record.t) : result (list string) :=
  match l with
  | [] => Ok []
  | record :: rest =>
      rbind (Record.__str__ record) (fun s =>
        rbind (render rest) (fun ss => Ok (s :: ss)))
  end.

(** A generator object of [iterator(N)]: its body has not run yet, or it is
    suspended at the [yield] with [records] read and the loop over
    [range(0, len(records), N)] about to try index [i], or it is over.
    [records] holds the records as they were read: the generator of the
    source holds references, so a command that edits a record between two
    calls of [next] would show in the later batches there.  The generator is
    used with no command in between. *)
Inductive generator : Type :=
| Unstarted (N : Z)
| Suspended (records : list Record.t) (N i : Z)
| Finished.

(** [self.iterator(N)]: calling a generator function runs none of its
    body. *)
Definition iterator (N : Z) : generator := Unstarted N.

(** [records[i:i + N]] for [0 <= i] and [0 < N]. *)
Definition slice (records : list Record.t) (i N : Z) : list Record.t :=
  firstn (Z.to_nat N) (skipn (Z.to_nat i) records).

(** The loop at index [i]: the batch there is yielded, or the range is used
    up ([None] for [StopIteration]); a negative step gives the empty
    range. *)
Definition resume (records : list Record.t) (N i : Z)
    : result (option (list string)) * generator :=
  if ((0 <? N) && (i <? Z.of_nat (List.length records)))%Z%bool
  then
    match render (slice records i N) with
    | Ok batch => (Ok (Some batch), Suspended records N (i + N)%Z)
    | Raise e => (Raise e, Finished)
    end
  else (Ok None, Finished).

(** [next(g)] for a generator of the book [self]: the first call reads
    [self.data] and builds the range, which raises on a step of 0. *)
Definition next (self : t) : M generator (option (list string)) :=
  fun g =>
    match g with
    | Unstarted N =>
        if (N =? 0)%Z then (Raise ValueError, Finished)
        else resume (map snd self) N 0
    | Suspended records N i => resume records N i
    | Finished => (Ok None, Finished)
    end.

(** [list(g)] with at most [fuel] calls of [next] and no command in between:
    the batches, and whether the generator was used up. *)
Fixpoint drain (self : t) (fuel : nat) (g : generator)
    : result (list (list string) * bool) :=
  match fuel with
  | O => Ok ([], false)
  | S fuel' =>
      match next self g with
      | (Raise e, _) => Raise e
      | (Ok None, _) => Ok ([], true)
      | (Ok (Some batch), g') =>
          rbind (drain self fuel' g') (fun r => Ok (batch :: fst r, snd r))
      end
  end.

End AddressBook.

(** * The command layer *)

Section Commands.

(** [datetime.now().date()], which the handlers reach through
    [Record(name)] only. *)
Variable today : datetime.date.

Local Open Scope py_scope.

(** The state of the handlers is the module-level [my_contacts]. *)
Definition handler : Type := string -> M AddressBook.t string.

(** [_, a, b = l] *)
Definition unpack3 (l : list string) : result (string * string * string) :=
  match l with
  | [x; a; b] => Ok (x, a, b)
  | _ => Raise ValueError
  end.

(** [_, a = l] *)
Definition unpack2 (l : list string) : result (string * string) :=
  match l with
  | [x; a] => Ok (x, a)
  | _ => Raise ValueError
  end.

(** [l[0]] *)
Definition first {A : Type} (l : list A) : result A :=
  match l with
  | x :: _ => Ok x
  | [] => Raise IndexError
  end.

(** The decorator [input_error]: three exception classes become messages,
    any other one passes. *)
Definition input_error (func : handler) : handler :=
  fun args my_contacts =>
    match func args my_contacts with
    | (Ok r, s) => (Ok r, s)
    | (Raise KeyError, s) => (Ok "Contact with that name not found.", s)
    | (Raise ValueError, s) => (Ok "Please enter a valid command.", s)
    | (Raise IndexError, s) =>
        (Ok "Please enter both name and phone number, separated by a space.", s)
    | (Raise e, s) => (Raise e, s)
    end.

(** The handlers before decoration.  Each is called with the one argument
    [main] passes, so [args[0]] is the input line. *)
Definition hello_body : handler := fun _ => ret "How can I help you?".

Definition add_body : handler :=
  fun line =>
    t <- lift (unpack3 (Str.split line)) ;;
    let '(_, name, phone) := t in
    record <- lift (Record.__init__ today name None None) ;;
    record <- lift (match Record.add_phone phone record with
                    | (Ok _, record') => Ok record'
                    | (Raise e, _) => Raise e
                    end) ;;
    (fun my_contacts => (Ok tt, AddressBook.setitem name record my_contacts)) ;;;
    ret ("Contact " ++ name ++ " with phone " ++ phone ++ " has been added.").

Definition change_body : handler :=
  fun line =>
    t <- lift (unpack3 (Str.split line)) ;;
    let '(_, name, phone) := t in
    my_contacts <- get ;;
    if AddressBook.contains name my_contacts
    then
      AddressBook.at_record name
        (record <- get ;;
         p <- lift (first (Record.phones record)) ;;
         Record.edit_phone (Phone.value p) phone) ;;;
      ret ("Phone number for contact " ++ name ++ " changed.")
    else ret ("Contact with name " ++ name ++ " not found.").

Definition phone_body : handler :=
  fun line =>
    t <- lift (unpack2 (Str.split line)) ;;
    let '(_, name) := t in
    my_contacts <- get ;;
    if AddressBook.contains name my_contacts
    then
      record <- AddressBook.getitem name ;;
      s <- lift (Record.__str__ record) ;;
      ret ("Phone number for contact " ++ name ++ " is " ++ s ++ ".")
    else ret ("Contact with name " ++ name ++ " is not defined.").

Definition show_all_body : handler :=
  fun _ =>
    my_contacts <- get ;;
    match my_contacts with
    | [] => ret "You have no contacts."
    | _ =>
        lines <- lift (AddressBook.render (map snd my_contacts)) ;;
        ret (String.concat "" (map (fun s => s ++ String "010" "") lines))
    end.

Definition exit_body : handler := fun _ => ret "Goodbye!".

Definition hello : handler := input_error hello_body.
Definition add : handler := input_error add_body.
Definition change : handler := input_error change_body.
Definition phone : handler := input_error phone_body.
Definition show_all : handler := input_error show_all_body.
Definition exit : handler := input_error exit_body.

(** The keys of [COMMANDS] are the six decorated functions; a tag stands for
    each function object, [call] applies it. *)
Inductive command : Type :=
| Hello
| Add
| Change
| PhoneOf
| ShowAll
| Exit.

Definition call (c : command) : handler :=
  match c with
  | Hello => hello
  | Add => add
  | Change => change
  | PhoneOf => phone
  | ShowAll => show_all
  | Exit => exit
  end.

(** [COMMANDS], in the order the dict literal lists it. *)
Definition COMMANDS : list (command * string) :=
  [ (Hello, "hello"); (Add, "add"); (Change, "change");
    (PhoneOf, "phone"); (ShowAll, "show all"); (Exit, "exit") ].

(** The loop of [command_handler] over the items that are left. *)
Fixpoint command_handler_from (items : list (command * string)) (text : string)
    : option command * string :=
  match items with
  | [] => (None, "")
  | (command, keywords) :: rest =>
      if Str.startswith (Str.lower text) keywords then (Some command, text)
      else command_handler_from rest text
  end.

(** [command_handler] *)
Definition command_handler (text : string) : option command * string :=
  command_handler_from COMMANDS text.

Definition is_exit (c : command) : bool :=
  match c with Exit => true | _ => false end.

(** One round of the loop of [main] on the line [input] returned: what is
    printed, and whether the loop breaks. *)
Definition main_round (user_input : string) : M AddressBook.t (string * bool) :=
  let (command, data) := command_handler user_input in
  match command with
  | None => ret ("Unknown command, try again.", false)
  | Some c =>
      out <- call c data ;;
      ret (out, is_exit c)
  end.

(** How [main] stands after the lines read so far: back at [input], or
    past the [break]. *)
Inductive loop : Type :=
| AwaitingInput
| Terminated.

(** [main] on the lines [input] has returned so far, one after the other:
    what it has printed and where it stands when they are used up.  Lines
    after the break are not read.  What the next call of [input] does is not
    part of this: it may return another line, or raise [EOFError] at the end
    of the standard input, which nothing catches. *)
Fixpoint main (inputs : list string) : M AddressBook.t (list string * loop) :=
  match inputs with
  | [] => ret ([], AwaitingInput)
  | user_input :: rest =>
      r <- main_round user_input ;;
      if snd r then ret ([fst r], Terminated)
      else
        r' <- main rest ;;
        ret (fst r :: fst r', snd r')
  end.

End Commands.

(** * Notions the properties are stated with *)

(** A phone value is valid when the pattern of [Phone.validate] matches
    it. *)
Definition valid_phone (s : string) : bool := re.match_ Phone.PATTERN s.

Fixpoint all_digits (s : string) : bool :=
  match s with
  | EmptyString => true
  | String c s' => (Str.isdigit c && all_digits s')%bool
  end.

(** The strings the phone pattern matches, spelled out: an optional [+],
    nine to fifteen digits and, since [$] also matches just before a final
    newline, an optional newline. *)
Definition phone_language (s : string) : Prop :=
  exists sign digits nl,
    s = sign ++ digits ++ nl
    /\ (sign = "" \/ sign = "+")
    /\ 9 <= String.length digits <= 15
    /\ all_digits digits = true
    /\ (nl = "" \/ nl = String "010" "").

(** Every phone of the record is valid. *)
Definition record_valid (r : Record.t) : Prop :=
  Forall (fun p => valid_phone (Phone.value p) = true) (Record.phones r).

(** Every record of the book holds valid phones only. *)
Definition book_valid (b : AddressBook.t) : Prop :=
  Forall (fun item => record_valid (snd item)) b.

(** The text of a record: what [str(record)] returns. *)
Definition text_of (r : Record.t) : string :=
  match Record.__str__ r with
  | Ok s => s
  | Raise _ => ""
  end.

(** [c] is the first command, in the order of [COMMANDS], whose keyword is a
    prefix of the lowered [text]. *)
Definition first_match (text : string) (c : command) : Prop :=
  exists before keyword after,
    COMMANDS = (before ++ (c, keyword) :: after)%list
    /\ Str.startswith (Str.lower text) keyword = true
    /\ Forall (fun item => Str.startswith (Str.lower text) (snd item) = false) before.

(** No keyword is a prefix of the lowered [text]. *)
Definition no_match (text : string) : Prop :=
  Forall (fun item => Str.startswith (Str.lower text) (snd item) = false) COMMANDS.

(** The record [Record(name)] followed by [add_phone(phone)] builds. *)
Definition fresh_record (name phone : string) : Record.t :=
  {| Record.name := {| Name.value := name |};
     Record.phones := [{| Phone._value := phone |}];
     Record.birthday := {| Birthday._value := None |} |}.

(** What [Record(name)] builds: a record without a phone. *)
Definition bare_record (name : string) : Record.t :=
  {| Record.name := {| Name.value := name |};
     Record.phones := [];
     Record.birthday := {| Birthday._value := None |} |}.

(** The book after [add john 1234567890] on an empty book. *)
Definition john_book : AddressBook.t := [("john", fresh_record "john" "1234567890")].

(** A book whose contact has no phone: [add_record(Record("john"))]. *)
Definition john_without_phone : AddressBook.t := [("john", bare_record "john")].

(** A book of five contacts, in the order they were added. *)
Definition five_contacts : AddressBook.t :=
  [ ("ann", fresh_record "ann" "111111111");
    ("bob", fresh_record "bob" "222222222");
    ("cat", fresh_record "cat" "333333333");
    ("dan", fresh_record "dan" "444444444");
    ("eve", fresh_record "eve" "555555555") ].

(** A date object: its fields pass the check of the constructor. *)
Definition is_date (a : datetime.date) : Prop :=
  datetime.fields_ok (datetime.year a) (datetime.month a) (datetime.day a) = true.

(** A day of the calendar, whatever the year. *)
Definition calendar_day (a : datetime.date) : Prop :=
  (1 <= datetime.month a <= 12
   /\ 1 <= datetime.day a
        <= datetime._days_in_month (datetime.year a) (datetime.month a))%Z.

(** The day after [a]. *)
Definition tomorrow (a : datetime.date) : datetime.date :=
  if (datetime.day a <? datetime._days_in_month (datetime.year a) (datetime.month a))%Z
  then {| datetime.year := datetime.year a;
          datetime.month := datetime.month a;
          datetime.day := datetime.day a + 1 |}
  else if (datetime.month a <? 12)%Z
  then {| datetime.year := datetime.year a;
          datetime.month := datetime.month a + 1;
          datetime.day := 1 |}
  else {| datetime.year := datetime.year a + 1;
          datetime.month := 1;
          datetime.day := 1 |}.

(** [nb] is the next occurrence of the month [m] and day [d] on or after
    [today]: a date with that month and day, not before [today], and no
    such date is before it. *)
Definition next_occurrence (today : datetime.date) (m d : Z) (nb : datetime.date) : Prop :=
  is_date nb
  /\ datetime.month nb = m
  /\ datetime.day nb = d
  /\ datetime.ltb nb today = false
  /\ forall x,
       is_date x -> datetime.month x = m -> datetime.day x = d ->
       datetime.ltb x today = false -> datetime.ltb x nb = false.

(** The occurrence of the month and day of [v] in the year [y]. *)
Definition occurrence (y : Z) (v : datetime.date) : datetime.date :=
  {| datetime.year := y; datetime.month := datetime.month v;
     datetime.day := datetime.day v |}.

Definition birthday_on (v : datetime.date) : Birthday.t :=
  {| Birthday._value := Some v |}.

Definition no_birthday : Birthday.t := {| Birthday._value := None |}.

(** No phone of [ps] has the value [phone]. *)
Definition absent (phone : string) (ps : list Phone.t) : Prop :=
  Forall (fun p => Phone.value p <> phone) ps.

(** The names of the contacts, in stored order. *)
Definition names (book : AddressBook.t) : list string := map fst book.

(** The commands whose handler only reads [my_contacts]. *)
Definition reads_only (c : command) : bool :=
  match c with
  | Add | Change => false
  | _ => true
  end.

(** * Phones *)

Lemma Phone_init_spec (s : string) :
  Phone.__init__ s
  = if valid_phone s then Ok {| Phone._value := s |} else Raise ValueError.
Proof.
  cbv [Phone.__init__ Phone.set_value Phone.validate Phone.value Phone._value
       bind put valid_phone].
  destruct (re.match_ Phone.PATTERN s); reflexivity.
Qed.

Lemma Phone_set_value_spec (s : string) (p : Phone.t) :
  Phone.set_value s p
  = (if valid_phone s then Ok tt else Raise ValueError, {| Phone._value := s |}).
Proof.
  cbv [Phone.set_value Phone.validate Phone.value Phone._value bind put valid_phone].
  destruct (re.match_ Phone.PATTERN s); reflexivity.
Qed.

(** The greedy loop over [\d]: it succeeds exactly when some number of
    digits between what is owed and what is allowed can be read and the
    rest of the pattern matches after them. *)
Lemma rep_Digit (n lo : nat) (k : nat -> string -> bool) (pos : nat) (s : string) :
  re.rep (re.exec re.Digit) lo n k pos s = true
  <-> exists digits rest,
        s = digits ++ rest
        /\ lo <= String.length digits <= n
        /\ all_digits digits = true
        /\ k (pos + String.length digits) rest = true.
Proof.
  revert lo pos s. induction n as [|n IH]; intros lo pos s; cbn [re.rep].
  - destruct lo.
    + split.
      * intros H. exists "", s. cbn. rewrite Nat.add_0_r. auto.
      * intros (ds & rest & -> & Hlen & _ & Hk).
        destruct ds; cbn in *; [rewrite Nat.add_0_r in Hk; exact Hk | lia].
    + split; [discriminate|]. intros (ds & rest & _ & Hlen & _). lia.
  - rewrite orb_true_iff. split.
    + intros [H | H].
      * cbn [re.exec] in H. destruct s as [|c s']; [discriminate|].
        apply andb_true_iff in H. destruct H as [Hc H].
        apply IH in H. destruct H as (ds & rest & -> & Hlen & Hds & Hk).
        exists (String c ds), rest. cbn. rewrite Hc, Hds.
        rewrite Nat.add_succ_r. repeat split; auto; lia.
      * destruct lo; [|discriminate].
        exists "", s. cbn. rewrite Nat.add_0_r. repeat split; auto; lia.
    + intros (ds & rest & -> & Hlen & Hds & Hk).
      destruct ds as [|c ds].
      * right. cbn in *. destruct lo; [|lia]. rewrite Nat.add_0_r in Hk. exact Hk.
      * left. cbn in Hds. apply andb_true_iff in Hds. destruct Hds as [Hc Hds].
        cbn [re.exec String.append]. rewrite Hc. cbn [andb].
        apply IH. exists ds, rest. cbn in Hlen, Hk.
        rewrite Nat.add_succ_r in Hk. repeat split; auto; lia.
Qed.

(** X1. The phone pattern matches exactly the strings of [phone_language]. *)
Lemma valid_phone_language (s : string) :
  valid_phone s = true <-> phone_language s.
Proof.
  unfold valid_phone, re.match_, Phone.PATTERN, phone_language.
  cbn [re.exec]. rewrite orb_true_iff. split.
  - intros [H | H].
    + destruct s as [|c s']; [discriminate|].
      apply andb_true_iff in H. destruct H as [Hc H].
      apply Ascii.eqb_eq in Hc. subst c.
      apply rep_Digit in H. destruct H as (ds & rest & -> & Hlen & Hds & Hk).
      rewrite andb_true_r, orb_true_iff in Hk.
      exists "+", ds, rest. cbn. repeat split; auto; try lia.
      destruct Hk as [Hk | Hk]; apply String.eqb_eq in Hk; auto.
    + apply rep_Digit in H. destruct H as (ds & rest & -> & Hlen & Hds & Hk).
      rewrite andb_true_r, orb_true_iff in Hk.
      exists "", ds, rest. cbn. repeat split; auto; try lia.
      destruct Hk as [Hk | Hk]; apply String.eqb_eq in Hk; auto.
  - intros (sign & ds & nl & -> & Hsign & Hlen & Hds & Hnl).
    assert (Hk : ((nl =? "") || (nl =? String "010" "")) && true = true).
    { rewrite andb_true_r, orb_true_iff.
      destruct Hnl as [-> | ->]; [left | right]; apply String.eqb_refl. }
    destruct Hsign as [-> | ->].
    + right. cbn [String.append]. apply rep_Digit. exists ds, nl. repeat split; auto; lia.
    + left. cbn [String.append]. rewrite Ascii.eqb_refl. cbn [andb].
      apply rep_Digit. exists ds, nl. repeat split; auto; lia.
Qed.

(** C5. For every string the pattern [^\+?\d{9,15}$] matches, [Phone(s)]
    succeeds and its [value] is [s] itself; for every string it does not
    match, [Phone(s)] raises [ValueError], the validation error.  The
    pattern is read as [re.match] reads it. *)
Theorem Phone_construction (s : string) :
  (valid_phone s = true ->
   exists p, Phone.__init__ s = Ok p /\ Phone.value p = s)
  /\ (valid_phone s = false -> Phone.__init__ s = Raise ValueError).
Proof.
  rewrite Phone_init_spec. split; intros H; rewrite H.
  - eexists. split; reflexivity.
  - reflexivity.
Qed.

Lemma Phone_construction_witness :
  (exists p, Phone.__init__ "+380501234567" = Ok p /\ Phone.value p = "+380501234567")
  /\ Phone.__init__ "12345" = Raise ValueError.
Proof.
  split.
  - apply (proj1 (Phone_construction "+380501234567")). reflexivity.
  - apply (proj2 (Phone_construction "12345")). reflexivity.
Defined.

(** * Tokens *)

Lemma split_from_nonempty (s cur t : string) :
  In t (Str.split_from cur s) -> t <> "".
Proof.
  revert cur. induction s as [|c s IH]; intros cur; cbn [Str.split_from].
  - destruct (String.eqb cur "") eqn:E; cbn; [tauto|].
    intros [<- | []]. now apply String.eqb_neq.
  - destruct (Str.isspace c); [|apply IH].
    destruct (String.eqb cur "") eqn:E; [apply IH|].
    cbn. intros [<- | H]; [now apply String.eqb_neq | eapply IH; eauto].
Qed.

(** No token of [split] is empty. *)
Lemma split_nonempty (s t : string) : In t (Str.split s) -> t <> "".
Proof. apply split_from_nonempty. Qed.

(** * The dict *)

Lemma lookup_setitem (k : string) (v : Record.t) (d : AddressBook.t) :
  AddressBook.lookup k (AddressBook.setitem k v d) = Some v.
Proof.
  induction d as [|[k' v'] d IH]; cbn.
  - now rewrite String.eqb_refl.
  - destruct (String.eqb k' k) eqn:E; cbn; rewrite E; auto.
Qed.

Lemma lookup_setitem_other (k k' : string) (v : Record.t) (d : AddressBook.t) :
  k' <> k ->
  AddressBook.lookup k' (AddressBook.setitem k v d) = AddressBook.lookup k' d.
Proof.
  intros Hk. induction d as [|[k0 v0] d IH]; cbn.
  - destruct (String.eqb_spec k k'); [congruence | reflexivity].
  - destruct (String.eqb_spec k0 k) as [-> | Hne]; cbn.
    + destruct (String.eqb_spec k k'); [congruence | reflexivity].
    + now rewrite IH.
Qed.

Lemma setitem_same (k : string) (v : Record.t) (d : AddressBook.t) :
  AddressBook.lookup k d = Some v -> AddressBook.setitem k v d = d.
Proof.
  induction d as [|[k' v'] d IH]; cbn; [discriminate|].
  destruct (String.eqb k' k) eqn:E.
  - intros [= ->]. reflexivity.
  - intros H. now rewrite IH.
Qed.

Lemma contains_lookup (k : string) (d : AddressBook.t) :
  AddressBook.contains k d = true <-> exists v, AddressBook.lookup k d = Some v.
Proof.
  unfold AddressBook.contains. destruct (AddressBook.lookup k d).
  - split; eauto.
  - split; [discriminate | intros [v [=]]].
Qed.

(** * The handlers, by cases *)

Lemma Record_init_bare (today : datetime.date) (name : string) :
  name <> "" -> Record.__init__ today name None None = Ok (bare_record name).
Proof.
  intros H. apply String.eqb_neq in H.
  unfold Record.__init__, Name.__init__. rewrite H. reflexivity.
Qed.

Lemma add_phone_spec (phone : string) (r : Record.t) :
  Record.add_phone phone r
  = if valid_phone phone
    then (Ok tt, Record.set_phones (Record.phones r ++ [{| Phone._value := phone |}]) r)
    else (Raise ValueError, r).
Proof.
  unfold Record.add_phone. rewrite Phone_init_spec.
  destruct (valid_phone phone) eqn:E; [|reflexivity].
  cbv [Phone.validate Phone.value Phone._value]. fold (valid_phone phone).
  rewrite E. reflexivity.
Qed.

(** [add] on a line of three tokens. *)
Lemma add_body_three (today : datetime.date) (line c name phone : string)
    (book : AddressBook.t) :
  Str.split line = [c; name; phone] ->
  add_body today line book
  = if valid_phone phone
    then (Ok ("Contact " ++ name ++ " with phone " ++ phone ++ " has been added."),
          AddressBook.setitem name (fresh_record name phone) book)
    else (Raise ValueError, book).
Proof.
  intros Hs.
  assert (Hn : name <> "").
  { apply (split_nonempty line). rewrite Hs. cbn. auto. }
  unfold add_body, bind, lift, ret. rewrite Hs. cbn [unpack3].
  rewrite (Record_init_bare today Hn), add_phone_spec.
  destruct (valid_phone phone); reflexivity.
Qed.

(** [add] on a line that has not three tokens. *)
Lemma add_body_not_three (today : datetime.date) (line : string) (book : AddressBook.t) :
  List.length (Str.split line) <> 3 ->
  add_body today line book = (Raise ValueError, book).
Proof.
  intros H. unfold add_body, bind, lift.
  destruct (Str.split line) as [|a [|b [|c [|d l]]]]; cbn in *; try reflexivity.
  congruence.
Qed.

(** [change] on a line of three tokens. *)
Lemma change_body_three (line c name phone : string) (book : AddressBook.t) :
  Str.split line = [c; name; phone] ->
  change_body line book
  = match AddressBook.lookup name book with
    | None => (Ok ("Contact with name " ++ name ++ " not found."), book)
    | Some record =>
        match Record.phones record with
        | [] => (Raise IndexError, book)
        | p :: _ =>
            match Record.edit_phone (Phone.value p) phone record with
            | (Ok _, record') =>
                (Ok ("Phone number for contact " ++ name ++ " changed."),
                 AddressBook.setitem name record' book)
            | (Raise e, record') => (Raise e, AddressBook.setitem name record' book)
            end
        end
    end.
Proof.
  intros Hs. unfold change_body, bind, lift, ret, get. rewrite Hs. cbn [unpack3].
  unfold AddressBook.contains, AddressBook.at_record.
  destruct (AddressBook.lookup name book) as [record|] eqn:El; [|reflexivity].
  cbv beta iota. rewrite El.
  destruct (Record.phones record) as [|p ps] eqn:Ep; cbn [first].
  - now rewrite (setitem_same _ _ El).
  - destruct (Record.edit_phone (Phone.value p) phone record) as [[b|e] record'];
      reflexivity.
Qed.

Lemma add_body_cases (today : datetime.date) (line : string) (book : AddressBook.t) :
  (exists name phone book',
     add_body today line book
     = (Ok ("Contact " ++ name ++ " with phone " ++ phone ++ " has been added."), book'))
  \/ add_body today line book = (Raise ValueError, book).
Proof.
  destruct (Nat.eq_dec (List.length (Str.split line)) 3) as [E | E].
  - destruct (Str.split line) as [|c [|name [|phone [|d l]]]] eqn:Hs; try discriminate E.
    rewrite (add_body_three today _ book Hs).
    destruct (valid_phone phone); eauto.
  - right. now apply add_body_not_three.
Qed.

(** * The command layer *)

(** C10. On every line of fewer than three tokens the unpacking in [add]
    raises [ValueError] and [add] returns "Please enter a valid command.",
    the book unchanged; and on no line at all does the body of [add] raise
    [IndexError] or [add] return the message of [IndexError]. *)
Theorem add_too_few_tokens (today : datetime.date) (line : string)
    (book : AddressBook.t) :
  List.length (Str.split line) < 3 ->
  add_body today line book = (Raise ValueError, book)
  /\ add today line book = (Ok "Please enter a valid command.", book)
  /\ (forall line' book',
        fst (add_body today line' book') <> Raise IndexError
        /\ fst (add today line' book')
           <> Ok "Please enter both name and phone number, separated by a space.").
Proof.
  intros H.
  assert (Hb : add_body today line book = (Raise ValueError, book)).
  { apply add_body_not_three. lia. }
  split; [exact Hb|]. split.
  - unfold add, input_error. now rewrite Hb.
  - intros line' book'. unfold add, input_error.
    destruct (add_body_cases today line' book') as [(name & phone & b & ->) | ->];
      cbn; split; discriminate.
Qed.

Lemma add_too_few_tokens_witness :
  add (datetime.Build_date 2024 1 10) "add john" []
  = (Ok "Please enter a valid command.", []).
Proof.
  apply (add_too_few_tokens (datetime.Build_date 2024 1 10) "add john" []).
  cbn. lia.
Defined.

(** C8. [change] on a line that names a contact the book does not hold
    returns the not-found message, raises nothing (not even inside the
    decorator) and leaves the book as it was. *)
Theorem change_absent_name (line c name phone : string) (book : AddressBook.t) :
  Str.split line = [c; name; phone] ->
  AddressBook.contains name book = false ->
  change_body line book = (Ok ("Contact with name " ++ name ++ " not found."), book)
  /\ change line book = (Ok ("Contact with name " ++ name ++ " not found."), book).
Proof.
  intros Hs Hc.
  assert (Hb : change_body line book
               = (Ok ("Contact with name " ++ name ++ " not found."), book)).
  { rewrite (change_body_three _ book Hs).
    unfold AddressBook.contains in Hc.
    destruct (AddressBook.lookup name book); [discriminate | reflexivity]. }
  split; [exact Hb|]. unfold change, input_error. now rewrite Hb.
Qed.

Lemma change_absent_name_witness :
  change "change nosuchname 123" john_book
  = (Ok "Contact with name nosuchname not found.", john_book).
Proof.
  apply (change_absent_name "change nosuchname 123" john_book
           (c := "change") (name := "nosuchname") (phone := "123"));
    reflexivity.
Defined.

Lemma edit_phone_no_phones (old_phone new_phone : string) (r : Record.t) :
  Record.phones r = [] -> Record.edit_phone old_phone new_phone r = (Ok false, r).
Proof.
  intros H. unfold Record.edit_phone, Record.set_phones. rewrite H. cbn.
  destruct r; cbn in *. now subst.
Qed.

(** C4, as the code has it. [change] on a contact without a phone does not
    reach [edit_phone]: reading [record.phones[0]] raises [IndexError],
    [input_error] turns it into its [IndexError] message, and the book stays
    as it was.  ([edit_phone] itself returns false on a record without a
    phone and raises nothing.) *)
Theorem change_no_phones (line c name phone : string) (book : AddressBook.t)
    (r : Record.t) :
  Str.split line = [c; name; phone] ->
  AddressBook.lookup name book = Some r ->
  Record.phones r = [] ->
  change_body line book = (Raise IndexError, book)
  /\ change line book
     = (Ok "Please enter both name and phone number, separated by a space.", book)
  /\ (forall old_phone new_phone,
        Record.edit_phone old_phone new_phone r = (Ok false, r)).
Proof.
  intros Hs Hl Hp.
  assert (Hb : change_body line book = (Raise IndexError, book)).
  { rewrite (change_body_three _ book Hs), Hl, Hp. reflexivity. }
  split; [exact Hb|]. split.
  - unfold change, input_error. now rewrite Hb.
  - intros. now apply edit_phone_no_phones.
Qed.

Lemma change_no_phones_witness :
  change "change john 1234567890" john_without_phone
  = (Ok "Please enter both name and phone number, separated by a space.",
     john_without_phone).
Proof.
  apply (change_no_phones "change john 1234567890" john_without_phone
           (c := "change") (name := "john") (phone := "1234567890")
           (r := bare_record "john"));
    reflexivity.
Defined.

(** C4 as stated fails: on the book [add_record(Record("john"))] builds,
    [change john 1234567890] raises [IndexError] inside the handler and
    returns the [IndexError] message, not the confirmation. *)
Lemma change_no_phones_not_silent :
  Record.__init__ (datetime.Build_date 2024 1 10) "john" None None
    = Ok (bare_record "john")
  /\ AddressBook.add_record (bare_record "john") [] = (Ok tt, john_without_phone)
  /\ change_body "change john 1234567890" john_without_phone
     = (Raise IndexError, john_without_phone)
  /\ change "change john 1234567890" john_without_phone
     = (Ok "Please enter both name and phone number, separated by a space.",
        john_without_phone)
  /\ fst (change "change john 1234567890" john_without_phone)
     <> Ok "Phone number for contact john changed.".
Proof.
  repeat split; try reflexivity. cbn. discriminate.
Qed.

Lemma setitem_present_shape (k : string) (v old : Record.t)
    (before after : AddressBook.t) :
  ~ In k (names before) ->
  AddressBook.setitem k v (before ++ (k, old) :: after)%list
  = (before ++ (k, v) :: after)%list.
Proof.
  unfold names. induction before as [|[k0 v0] before IH]; cbn; intros H.
  - now rewrite String.eqb_refl.
  - destruct (String.eqb_spec k0 k) as [-> | Hne]; [tauto|].
    rewrite IH by tauto. reflexivity.
Qed.

Lemma setitem_absent_shape (k : string) (v : Record.t) (d : AddressBook.t) :
  ~ In k (names d) -> AddressBook.setitem k v d = (d ++ [(k, v)])%list.
Proof.
  unfold names. induction d as [|[k0 v0] d IH]; cbn; intros H; [reflexivity|].
  destruct (String.eqb_spec k0 k) as [-> | Hne]; [tauto|].
  rewrite IH by tauto. reflexivity.
Qed.

(** C7. [add] on a line [add <name> <phone>] with a valid phone builds a
    record from scratch and puts it in the place of the entry of [name]:
    the book afterwards is the book before with that one entry replaced, the
    old record gone and nothing of it merged, or with the new entry at the
    end when the name was not there.  The new record has that one phone and
    no birthday, the other contacts are as they were, and the confirmation
    is returned. *)
Theorem add_overwrites (today : datetime.date) (line c name phone : string)
    (book : AddressBook.t) :
  Str.split line = [c; name; phone] ->
  valid_phone phone = true ->
  exists book',
    add today line book
    = (Ok ("Contact " ++ name ++ " with phone " ++ phone ++ " has been added."), book')
    /\ (forall before old after,
          book = (before ++ (name, old) :: after)%list ->
          ~ In name (names before) ->
          book' = (before ++ (name, fresh_record name phone) :: after)%list)
    /\ (~ In name (names book) ->
        book' = (book ++ [(name, fresh_record name phone)])%list)
    /\ AddressBook.lookup name book' = Some (fresh_record name phone)
    /\ map Phone.value (Record.phones (fresh_record name phone)) = [phone]
    /\ (forall other, other <> name ->
          AddressBook.lookup other book' = AddressBook.lookup other book).
Proof.
  intros Hs Hv. exists (AddressBook.setitem name (fresh_record name phone) book).
  split; [|split; [|split; [|split; [|split]]]].
  - unfold add, input_error. rewrite (add_body_three today _ book Hs), Hv. reflexivity.
  - intros before old after -> Hb. now apply setitem_present_shape.
  - intros Hb. now apply setitem_absent_shape.
  - apply lookup_setitem.
  - reflexivity.
  - intros other Ho. now apply lookup_setitem_other.
Qed.

Lemma add_overwrites_witness :
  (exists book',
     add (datetime.Build_date 2024 1 10) "add john 9999999999"
       (snd (add (datetime.Build_date 2024 1 10) "add john 1234567890" []))
     = (Ok "Contact john with phone 9999999999 has been added.", book')
     /\ (forall before old after,
           snd (add (datetime.Build_date 2024 1 10) "add john 1234567890" [])
           = (before ++ ("john", old) :: after)%list ->
           ~ In "john" (names before) ->
           book' = (before ++ ("john", fresh_record "john" "9999999999") :: after)%list)
     /\ (~ In "john"
             (names (snd (add (datetime.Build_date 2024 1 10)
                            "add john 1234567890" []))) ->
         book' = (snd (add (datetime.Build_date 2024 1 10) "add john 1234567890" [])
                  ++ [("john", fresh_record "john" "9999999999")])%list)
     /\ AddressBook.lookup "john" book' = Some (fresh_record "john" "9999999999")
     /\ map Phone.value (Record.phones (fresh_record "john" "9999999999"))
        = ["9999999999"]
     /\ (forall other, other <> "john" ->
           AddressBook.lookup other book'
           = AddressBook.lookup other
               (snd (add (datetime.Build_date 2024 1 10) "add john 1234567890" []))))
  /\ snd (add (datetime.Build_date 2024 1 10) "add john 9999999999"
            (snd (add (datetime.Build_date 2024 1 10) "add john 1234567890" [])))
     = [("john", fresh_record "john" "9999999999")].
Proof.
  split.
  - apply (add_overwrites (datetime.Build_date 2024 1 10) "add john 9999999999"
             (snd (add (datetime.Build_date 2024 1 10) "add john 1234567890" []))
             (c := "add") (name := "john") (phone := "9999999999"));
      reflexivity.
  - reflexivity.
Defined.

(** * Validity of the stored phones *)

Lemma setitem_Forall (P : string * Record.t -> Prop) (k : string) (v : Record.t)
    (d : AddressBook.t) :
  Forall P d -> P (k, v) -> Forall P (AddressBook.setitem k v d).
Proof.
  intros Hd Hv. induction Hd as [|[k' v'] d Hx Hd IH]; cbn.
  - auto.
  - destruct (String.eqb k' k) eqn:E.
    + apply String.eqb_eq in E. subst k'. auto.
    + auto.
Qed.

(** The path of [add]: the phone is validated before anything is stored, so
    a valid book stays valid. *)
Lemma add_preserves_valid (today : datetime.date) (line : string)
    (book : AddressBook.t) :
  book_valid book -> book_valid (snd (add today line book)).
Proof.
  intros Hv. unfold add, input_error.
  destruct (Nat.eq_dec (List.length (Str.split line)) 3) as [E | E].
  - destruct (Str.split line) as [|c [|name [|phone [|d l]]]] eqn:Hs; try discriminate E.
    rewrite (add_body_three today _ book Hs).
    destruct (valid_phone phone) eqn:Hp; cbn; [|exact Hv].
    apply setitem_Forall; [exact Hv|].
    cbn. constructor; [exact Hp | constructor].
  - rewrite (add_body_not_three today _ book E). exact Hv.
Qed.

(** The path of [edit_phone]: the setter has stored the new value when
    [validate] raises, and the phone is the one in the record's list. *)
Lemma edit_phone_malformed (old_phone new_phone : string) (r : Record.t)
    (p : Phone.t) (rest : list Phone.t) :
  Record.phones r = p :: rest ->
  Phone.value p = old_phone ->
  valid_phone new_phone = false ->
  Record.edit_phone old_phone new_phone r
  = (Raise ValueError, Record.set_phones ({| Phone._value := new_phone |} :: rest) r).
Proof.
  intros Hp Ho Hn. unfold Record.edit_phone. rewrite Hp. cbn [Record.edit_first].
  rewrite Ho, String.eqb_refl, Phone_set_value_spec, Hn. reflexivity.
Qed.

Lemma change_malformed (line c name phone : string) (book : AddressBook.t)
    (r : Record.t) (p : Phone.t) (rest : list Phone.t) :
  Str.split line = [c; name; phone] ->
  AddressBook.lookup name book = Some r ->
  Record.phones r = p :: rest ->
  valid_phone phone = false ->
  change line book
  = (Ok "Please enter a valid command.",
     AddressBook.setitem name
       (Record.set_phones ({| Phone._value := phone |} :: rest) r) book).
Proof.
  intros Hs Hl Hp Hn. unfold change, input_error.
  rewrite (change_body_three _ book Hs), Hl, Hp.
  rewrite (@edit_phone_malformed _ _ _ _ _ Hp eq_refl Hn). reflexivity.
Qed.

(** C1, at the input where the code breaks it. After [add john 1234567890]
    every stored phone is valid; [change john abc] then fails validation and
    returns the [ValueError] message, yet the book now holds the phone
    [abc]: the setter assigns before it validates. *)
Theorem change_stores_malformed_phone (today : datetime.date) :
  add today "add john 1234567890" []
    = (Ok "Contact john with phone 1234567890 has been added.", john_book)
  /\ book_valid john_book
  /\ valid_phone "abc" = false
  /\ change "change john abc" john_book
     = (Ok "Please enter a valid command.", [("john", fresh_record "john" "abc")])
  /\ ~ book_valid [("john", fresh_record "john" "abc")].
Proof.
  split; [reflexivity|]. split; [|split; [reflexivity|split; [reflexivity|]]].
  - repeat constructor.
  - intros H. inversion H as [|x l Hr _]; subst.
    inversion Hr as [|y l' Hp _]; subst. discriminate Hp.
Qed.

(** * Dispatch *)

Lemma command_handler_from_some (items : list (command * string)) (text : string)
    (c : command) :
  command_handler_from items text = (Some c, text)
  <-> exists before keyword after,
        items = (before ++ (c, keyword) :: after)%list
        /\ Str.startswith (Str.lower text) keyword = true
        /\ Forall (fun item => Str.startswith (Str.lower text) (snd item) = false) before.
Proof.
  induction items as [|[c' kw] items IH]; cbn [command_handler_from].
  - split; [discriminate|]. intros (before & k & after & H & _).
    destruct before; discriminate H.
  - destruct (Str.startswith (Str.lower text) kw) eqn:E.
    + split.
      * intros [= ->]. exists [], kw, items. auto.
      * intros (before & k & after & H & Hk & Hb).
        destruct before as [|[c0 k0] before]; cbn in H.
        -- injection H as -> _ _. reflexivity.
        -- injection H as -> -> _. inversion Hb; subst. cbn in *. congruence.
    + rewrite IH. split.
      * intros (before & k & after & -> & Hk & Hb).
        exists ((c', kw) :: before), k, after. repeat split; auto.
      * intros (before & k & after & H & Hk & Hb).
        destruct before as [|[c0 k0] before]; cbn in H.
        -- injection H as -> -> _. congruence.
        -- injection H as -> -> ->. inversion Hb; subst.
           exists before, k, after. auto.
Qed.

Lemma command_handler_from_none (items : list (command * string)) (text : string) :
  Forall (fun item => Str.startswith (Str.lower text) (snd item) = false) items ->
  command_handler_from items text = (None, "").
Proof.
  induction 1 as [|[c kw] items Hx _ IH]; cbn in *; [reflexivity|].
  now rewrite Hx.
Qed.

(** C9. [command_handler] lowers the line and returns the first command,
    in the declared order hello, add, change, phone, show all, exit, whose
    keyword is a prefix of the lowered line, together with the line as it
    was typed.  When no keyword is a prefix it returns no command; the round
    of the loop then prints "Unknown command, try again.", raises nothing,
    does not break and leaves the book alone; and [main] goes on: it reads
    the next line and handles it as if the unknown line had not been there,
    so that a following exit line is answered and ends the loop. *)
Theorem command_dispatch (text : string) :
  COMMANDS = [ (Hello, "hello"); (Add, "add"); (Change, "change");
               (PhoneOf, "phone"); (ShowAll, "show all"); (Exit, "exit") ]
  /\ (forall c, command_handler text = (Some c, text) <-> first_match text c)
  /\ (no_match text ->
      command_handler text = (None, "")
      /\ forall today book,
           main_round today text book
           = (Ok ("Unknown command, try again.", false), book)
           /\ (forall rest,
                 main today (text :: rest) book
                 = match main today rest book with
                   | (Ok (printed, state), book') =>
                       (Ok ("Unknown command, try again." :: printed, state), book')
                   | (Raise e, book') => (Raise e, book')
                   end)
           /\ (forall exit_line after,
                 fst (command_handler exit_line) = Some Exit ->
                 main today (text :: exit_line :: after) book
                 = (Ok (["Unknown command, try again."; "Goodbye!"], Terminated),
                    book))).
Proof.
  split; [reflexivity|]. split.
  - intros c. apply command_handler_from_some.
  - intros H.
    assert (Hn : command_handler text = (None, ""))
      by now apply command_handler_from_none.
    split; [exact Hn|]. intros today book.
    assert (Hr : main_round today text book
                 = (Ok ("Unknown command, try again.", false), book)).
    { unfold main_round. rewrite Hn. reflexivity. }
    split; [exact Hr|]. split.
    + intros rest.
      cbn [main]. unfold bind at 1. rewrite Hr. cbn [snd fst].
      unfold bind, ret. destruct (main today rest book) as [[[printed state]|e] book'];
        reflexivity.
    + intros exit_line after He.
      cbn [main]. unfold bind at 1. rewrite Hr. cbn [snd fst].
      unfold bind at 1. unfold bind at 1. unfold main_round.
      destruct (command_handler exit_line) as [[c|] data]; cbn in He; [|discriminate].
      injection He as ->. reflexivity.
Qed.

Lemma command_dispatch_witness :
  (command_handler "list everything" = (None, "")
   /\ forall today book,
        main_round today "list everything" book
        = (Ok ("Unknown command, try again.", false), book)
        /\ (forall rest,
              main today ("list everything" :: rest) book
              = match main today rest book with
                | (Ok (printed, state), book') =>
                    (Ok ("Unknown command, try again." :: printed, state), book')
                | (Raise e, book') => (Raise e, book')
                end)
        /\ (forall exit_line after,
              fst (command_handler exit_line) = Some Exit ->
              main today ("list everything" :: exit_line :: after) book
              = (Ok (["Unknown command, try again."; "Goodbye!"], Terminated),
                 book)))
  /\ command_handler "ADD john 1234567890" = (Some Add, "ADD john 1234567890")
  /\ main (datetime.Build_date 2024 1 10)
        ["list everything"; "add ann 111111111"; "exit"; "hello"] []
     = (Ok (["Unknown command, try again.";
             "Contact ann with phone 111111111 has been added."; "Goodbye!"],
            Terminated),
        [("ann", fresh_record "ann" "111111111")]).
Proof.
  split; [|split].
  - apply (proj2 (proj2 (command_dispatch "list everything"))).
    repeat constructor.
  - apply (proj1 (proj2 (command_dispatch "ADD john 1234567890"))).
    exists [(Hello, "hello")], "add", [(Change, "change"); (PhoneOf, "phone");
      (ShowAll, "show all"); (Exit, "exit")].
    repeat split. repeat constructor.
  - reflexivity.
Defined.

(** * The batched iterator *)

Lemma Record_str_total (r : Record.t) : Record.__str__ r = Ok (text_of r).
Proof.
  unfold text_of, Record.__str__, Birthday.__str__, Birthday.value.
  destruct (Birthday._value (Record.birthday r)); reflexivity.
Qed.

Lemma render_total (l : list Record.t) :
  AddressBook.render l = Ok (map text_of l).
Proof.
  induction l as [|r l IH]; cbn; [reflexivity|].
  now rewrite Record_str_total, IH.
Qed.

(** More fuel does not change what a used-up generator has yielded. *)
Lemma drain_more_fuel (self : AddressBook.t) (fuel : nat) :
  forall g batches fuel',
    AddressBook.drain self fuel g = Ok (batches, true) ->
    (fuel <= fuel')%nat ->
    AddressBook.drain self fuel' g = Ok (batches, true).
Proof.
  induction fuel as [|fuel IH]; intros g batches fuel' H Hle; cbn in H.
  - discriminate H.
  - destruct fuel' as [|fuel']; [lia|]. cbn.
    destruct (AddressBook.next self g) as [[[batch|]|e] g']; try exact H.
    destruct (AddressBook.drain self fuel g') as [[bs b]|e] eqn:E; cbn in H;
      [|discriminate].
    injection H as <- ->.
    rewrite (IH g' bs fuel' E); [reflexivity | lia].
Qed.

Section Batches.

Variable self : AddressBook.t.
Variable n : Z.
Hypothesis n_positive : (0 < n)%Z.
Variable records : list Record.t.

(** The loop of the generator from index [i] on: it stops within the fuel,
    and its batches are the texts of the records from [i] on, cut into
    pieces of [n]. *)
Lemma drain_from (fuel : nat) :
  forall i : Z,
    (0 <= i)%Z ->
    (List.length (skipn (Z.to_nat i) records) < fuel)%nat ->
    exists batches,
      AddressBook.drain self fuel (AddressBook.Suspended records n i)
      = Ok (batches, true)
      /\ List.concat batches = map text_of (skipn (Z.to_nat i) records)
      /\ Forall (fun b => (1 <= List.length b <= Z.to_nat n)%nat) batches
      /\ (forall before b after,
            batches = (before ++ b :: after)%list -> after <> [] ->
            List.length b = Z.to_nat n).
Proof.
  induction fuel as [|fuel IH]; intros i Hi Hlen; [lia|].
  cbn [AddressBook.drain AddressBook.next]. unfold AddressBook.resume.
  assert (Hn : (0 <? n)%Z = true) by now apply Z.ltb_lt.
  rewrite Hn. cbn [andb].
  destruct (Z.ltb_spec i (Z.of_nat (List.length records))) as [Hlt | Hge].
  - unfold AddressBook.slice. rewrite render_total.
    set (rest := skipn (Z.to_nat i) records) in *.
    assert (Hrest : (1 <= List.length rest)%nat).
    { unfold rest. rewrite length_skipn. lia. }
    assert (Hskip : skipn (Z.to_nat (i + n)) records = skipn (Z.to_nat n) rest).
    { unfold rest. rewrite skipn_skipn. f_equal. lia. }
    destruct (IH (i + n)%Z) as (bs & Hd & Hc & Hf & Hl).
    + lia.
    + rewrite Hskip, length_skipn. lia.
    + rewrite Hd. cbn [rbind fst snd].
      exists (map text_of (firstn (Z.to_nat n) rest) :: bs).
      split; [reflexivity|]. split; [|split].
      * cbn [List.concat]. rewrite Hc, Hskip, <- map_app, firstn_skipn. reflexivity.
      * constructor; [|exact Hf].
        rewrite length_map, length_firstn. lia.
      * intros before b after Hsplit Hne.
        destruct before as [|b' before]; cbn in Hsplit;
          injection Hsplit as <- ->; [|now apply (Hl before b after)].
        rewrite length_map, length_firstn.
        assert (Hmore : (1 <= List.length (skipn (Z.to_nat n) rest))%nat).
        { rewrite <- Hskip, <- (length_map text_of), <- Hc.
          destruct after as [|b0 bs0]; [congruence|].
          inversion Hf as [|x l Hb0 _]; subst.
          cbn [List.concat]. rewrite length_app. lia. }
        rewrite length_skipn in Hmore. lia.
  - exists []. rewrite skipn_all2 by lia.
    repeat split; auto. intros [|x before] b after [=].
Qed.

End Batches.

(** C6. For every book and every [n > 0], the generator [iterator(n)] is
    used up after finitely many batches (any fuel above the number of
    records reaches [StopIteration]); the batches, one after the other, are
    the texts [str(record)] of all the records in stored order, each record
    once; every batch has between 1 and [n] texts, and every batch but the
    last has exactly [n]. *)
Theorem iterator_batches (book : AddressBook.t) (n : Z) :
  (0 < n)%Z ->
  exists batches,
    (forall fuel, (List.length book < fuel)%nat ->
       AddressBook.drain book fuel (AddressBook.iterator n) = Ok (batches, true))
    /\ List.concat batches = map text_of (map snd book)
    /\ (forall r, Record.__str__ r = Ok (text_of r))
    /\ Forall (fun b => (1 <= List.length b <= Z.to_nat n)%nat) batches
    /\ (forall before b after,
          batches = (before ++ b :: after)%list -> after <> [] ->
          List.length b = Z.to_nat n).
Proof.
  intros Hn.
  destruct (@drain_from book n Hn (map snd book) (S (List.length book)) 0%Z)
    as (batches & Hd & Hc & Hf & Hl).
  - lia.
  - cbn [Z.to_nat skipn]. rewrite length_map. lia.
  - exists batches. split; [|split; [|split; [|split]]].
    + intros fuel Hfuel.
      apply (@drain_more_fuel book (S (List.length book))); [|lia].
      rewrite <- Hd. cbn [AddressBook.drain AddressBook.next AddressBook.iterator].
      destruct (Z.eqb_spec n 0); [lia | reflexivity].
    + exact Hc.
    + apply Record_str_total.
    + exact Hf.
    + exact Hl.
Qed.

Lemma iterator_batches_witness :
  (exists batches,
     (forall fuel, (List.length five_contacts < fuel)%nat ->
        AddressBook.drain five_contacts fuel (AddressBook.iterator 2)
        = Ok (batches, true))
     /\ List.concat batches = map text_of (map snd five_contacts)
     /\ (forall r, Record.__str__ r = Ok (text_of r))
     /\ Forall (fun b => (1 <= List.length b <= Z.to_nat 2)%nat) batches
     /\ (forall before b after,
           batches = (before ++ b :: after)%list -> after <> [] ->
           List.length b = Z.to_nat 2))
  /\ AddressBook.drain five_contacts 6 (AddressBook.iterator 2)
     = Ok ([ ["Name: ann, Phone: 111111111"; "Name: bob, Phone: 222222222"];
             ["Name: cat, Phone: 333333333"; "Name: dan, Phone: 444444444"];
             ["Name: eve, Phone: 555555555"] ], true).
Proof.
  split.
  - apply (@iterator_batches five_contacts 2%Z). reflexivity.
  - reflexivity.
Defined.

(** * The calendar *)

Section Calendar.

Import datetime.
Local Open Scope Z_scope.

Lemma days_before_year_succ (y : Z) :
  _days_before_year (y + 1)
  = _days_before_year y + 365 + (if _is_leap y then 1 else 0).
Proof.
  unfold _days_before_year, _is_leap.
  replace (y + 1 - 1) with y by lia.
  destruct (Z.eqb_spec (y mod 4) 0), (Z.eqb_spec (y mod 100) 0),
    (Z.eqb_spec (y mod 400) 0); cbn; Z.div_mod_to_equations; lia.
Qed.

Lemma days_before_year_mono (y1 y2 : Z) :
  y1 <= y2 -> _days_before_year y1 <= _days_before_year y2.
Proof.
  unfold _days_before_year. intros. Z.div_mod_to_equations. lia.
Qed.

(** The twelve months, for proofs by cases. *)
Lemma month_cases (m : Z) :
  1 <= m <= 12 ->
  m = 1 \/ m = 2 \/ m = 3 \/ m = 4 \/ m = 5 \/ m = 6
  \/ m = 7 \/ m = 8 \/ m = 9 \/ m = 10 \/ m = 11 \/ m = 12.
Proof. lia. Qed.

Ltac by_month H :=
  let H' := fresh in
  pose proof (month_cases H) as H';
  repeat (destruct H' as [H' | H']); subst.

Lemma days_before_month_succ (y m : Z) :
  1 <= m < 12 ->
  _days_before_month y (m + 1) = _days_before_month y m + _days_in_month y m.
Proof.
  intros H. assert (H12 : 1 <= m <= 12) by lia.
  unfold _days_before_month, _days_in_month.
  by_month H12; destruct (_is_leap y); cbn; lia.
Qed.

Lemma days_in_month_pos (y m : Z) : 1 <= m <= 12 -> 28 <= _days_in_month y m <= 31.
Proof.
  intros H. unfold _days_in_month.
  by_month H; destruct (_is_leap y); cbn; lia.
Qed.

Lemma days_before_month_mono (y m1 m2 : Z) :
  1 <= m1 -> m1 < m2 -> m2 <= 12 ->
  _days_before_month y m1 + _days_in_month y m1 <= _days_before_month y m2.
Proof.
  intros H1 H H2. assert (Ha : 1 <= m1 <= 12) by lia.
  assert (Hb : 1 <= m2 <= 12) by lia.
  unfold _days_before_month, _days_in_month.
  by_month Ha; by_month Hb; try lia; destruct (_is_leap y); cbn; lia.
Qed.

(** The last day of December is day 365 or 366 of its year. *)
Lemma day_of_year_bounds (y m d : Z) :
  1 <= m <= 12 -> 1 <= d <= _days_in_month y m ->
  1 <= _days_before_month y m + d <= 365 + (if _is_leap y then 1 else 0).
Proof.
  intros Hm. unfold _days_before_month, _days_in_month.
  by_month Hm; destruct (_is_leap y); cbn -[Z.add]; lia.
Qed.

Lemma ltb_iff (a b : date) :
  ltb a b = true
  <-> year a < year b
      \/ (year a = year b
          /\ (month a < month b \/ (month a = month b /\ day a < day b))).
Proof.
  unfold ltb.
  rewrite !orb_true_iff, !andb_true_iff, !orb_true_iff, !andb_true_iff,
    !Z.ltb_lt, !Z.eqb_eq.
  tauto.
Qed.

Lemma ltb_false_iff (a b : date) :
  ltb a b = false
  <-> year b < year a
      \/ (year a = year b
          /\ (month b < month a \/ (month a = month b /\ day b <= day a))).
Proof.
  rewrite <- not_true_iff_false, ltb_iff. lia.
Qed.

Lemma is_date_calendar (a : date) : is_date a -> calendar_day a.
Proof.
  unfold is_date, calendar_day, fields_ok. intros H.
  repeat (apply andb_true_iff in H; destruct H as [H ?]). lia.
Qed.

Lemma is_date_year (a : date) : is_date a -> MINYEAR <= year a <= MAXYEAR.
Proof.
  unfold is_date, fields_ok. intros H.
  repeat (apply andb_true_iff in H; destruct H as [H ?]). lia.
Qed.

Lemma fields_ok_iff (y m d : Z) :
  fields_ok y m d = true
  <-> MINYEAR <= y <= MAXYEAR /\ 1 <= m <= 12 /\ 1 <= d <= _days_in_month y m.
Proof.
  unfold fields_ok. rewrite !andb_true_iff, !Z.leb_le. tauto.
Qed.

(** Dates compare as their ordinals do. *)
Lemma toordinal_lt (a b : date) :
  calendar_day a -> calendar_day b -> ltb a b = true -> toordinal a < toordinal b.
Proof.
  intros [Hma Hda] [Hmb Hdb] H. apply ltb_iff in H.
  unfold toordinal, _ymd2ord.
  pose proof (day_of_year_bounds (year a) Hma Hda) as Ba.
  pose proof (day_of_year_bounds (year b) Hmb Hdb) as Bb.
  destruct H as [Hy | [Hy [Hm | [Hm Hd]]]].
  - pose proof (days_before_year_succ (year a)) as Hs.
    pose proof (@days_before_year_mono (year a + 1) (year b) ltac:(lia)).
    lia.
  - rewrite Hy in *.
    pose proof (@days_before_month_mono (year b) (month a) (month b)
                  ltac:(lia) Hm ltac:(lia)).
    lia.
  - rewrite Hy, Hm in *. lia.
Qed.

Lemma ltb_trichotomy (a b : date) : ltb a b = true \/ a = b \/ ltb b a = true.
Proof.
  rewrite !ltb_iff. destruct a as [ya ma da], b as [yb mb db]. cbn.
  destruct (Z.lt_trichotomy ya yb) as [?|[?|?]]; try lia.
  destruct (Z.lt_trichotomy ma mb) as [?|[?|?]]; try lia.
  destruct (Z.lt_trichotomy da db) as [?|[?|?]]; try lia.
  right. left. congruence.
Qed.

Lemma toordinal_le (a b : date) :
  calendar_day a -> calendar_day b -> ltb b a = false -> toordinal a <= toordinal b.
Proof.
  intros Ha Hb H. destruct (ltb_trichotomy a b) as [Hlt | [-> | Hgt]].
  - pose proof (toordinal_lt Ha Hb Hlt). lia.
  - lia.
  - congruence.
Qed.

Lemma toordinal_inj (a b : date) :
  calendar_day a -> calendar_day b -> toordinal a = toordinal b -> a = b.
Proof.
  intros Ha Hb H. destruct (ltb_trichotomy a b) as [Hlt | [-> | Hgt]].
  - pose proof (toordinal_lt Ha Hb Hlt). lia.
  - reflexivity.
  - pose proof (toordinal_lt Hb Ha Hgt). lia.
Qed.

(** The ordinal counts days: the day after has the next ordinal. *)
Lemma tomorrow_spec (a : date) :
  calendar_day a ->
  calendar_day (tomorrow a) /\ toordinal (tomorrow a) = toordinal a + 1.
Proof.
  intros [Hm Hd]. unfold tomorrow, calendar_day, toordinal, _ymd2ord.
  destruct (Z.ltb_spec (day a) (_days_in_month (year a) (month a))) as [Hlt | Hge];
    cbn [year month day].
  - lia.
  - destruct (Z.ltb_spec (month a) 12) as [Hlt12 | Hge12]; cbn [year month day].
    + pose proof (@days_before_month_succ (year a) (month a) ltac:(lia)).
      pose proof (@days_in_month_pos (year a) (month a + 1) ltac:(lia)).
      lia.
    + assert (month a = 12) as Hdec by lia.
      pose proof (days_before_year_succ (year a)) as Hs.
      pose proof (day_of_year_bounds (year a) Hm Hd) as B.
      rewrite Hdec in *. unfold _days_before_month, _days_in_month in *.
      cbn -[Z.add] in *.
      destruct (_is_leap (year a)), (_is_leap (year a + 1)); cbn -[Z.add] in *; lia.
Qed.

Lemma iter_tomorrow (k : nat) (a : date) :
  calendar_day a ->
  calendar_day (Nat.iter k tomorrow a)
  /\ toordinal (Nat.iter k tomorrow a) = toordinal a + Z.of_nat k.
Proof.
  intros Ha. induction k as [|k [IHc IHo]]; simpl Nat.iter.
  - split; [exact Ha | lia].
  - destruct (tomorrow_spec IHc) as [Hc Ho]. split; [exact Hc | lia].
Qed.

(** Counting days one by one from [a] reaches [b] after the difference of
    the ordinals. *)
Lemma days_between (a b : date) :
  calendar_day a -> calendar_day b -> ltb b a = false ->
  0 <= sub_days b a /\ Nat.iter (Z.to_nat (sub_days b a)) tomorrow a = b.
Proof.
  intros Ha Hb H. pose proof (toordinal_le Ha Hb H) as Hle.
  unfold sub_days. split; [lia|].
  destruct (iter_tomorrow (Z.to_nat (toordinal b - toordinal a)) Ha) as [Hc Ho].
  apply toordinal_inj; auto. lia.
Qed.

End Calendar.

(** * Days to the birthday *)

Section DaysToBirthday.

Import datetime.
Local Open Scope Z_scope.

(** [days_to_birthday] on a birthday that is set, by cases. *)
Lemma days_to_birthday_set (today v : date) :
  Birthday.days_to_birthday today (birthday_on v)
  = if fields_ok (year today) (month v) (day v)
    then
      if ltb (occurrence (year today) v) today
      then
        if fields_ok (year today + 1) (month v) (day v)
        then Ok (Some (sub_days (occurrence (year today + 1) v) today))
        else Raise ValueError
      else Ok (Some (sub_days (occurrence (year today) v) today))
    else Raise ValueError.
Proof.
  unfold Birthday.days_to_birthday, birthday_on, new, occurrence.
  cbn [Birthday._value].
  destruct (fields_ok (year today) (month v) (day v)); cbn [rbind]; [|reflexivity].
  destruct (ltb _ today); [|reflexivity].
  destruct (fields_ok (year today + 1) (month v) (day v)); reflexivity.
Qed.

(** A month and day other than February 29 occur in every year a date can
    have. *)
Lemma occurrence_exists (y : Z) (v : date) :
  is_date v -> MINYEAR <= y <= MAXYEAR ->
  ~ (month v = 2 /\ day v = 29) ->
  fields_ok y (month v) (day v) = true.
Proof.
  intros Hv Hy Hleap. apply is_date_calendar in Hv. destruct Hv as [Hm Hd].
  apply fields_ok_iff. split; [exact Hy|]. split; [exact Hm|].
  revert Hd. unfold _days_in_month.
  pose proof (month_cases Hm) as H.
  repeat (destruct H as [H | H]); rewrite H in *;
    destruct (_is_leap (year v)), (_is_leap y); cbn; lia.
Qed.

(** C3. With a stored February 29, [days_to_birthday] raises [ValueError]
    whenever the year it rebuilds the date in is not a leap year: at once
    when the current year is none, and at the second construction when the
    current year is one and its February 29 is before today, the next year
    being none.  It returns a count only in a leap year up to February
    29. *)
Theorem leap_day_not_special_cased (today v : date) :
  is_date today -> month v = 2 -> day v = 29 ->
  (_is_leap (year today) = false ->
   Birthday.days_to_birthday today (birthday_on v) = Raise ValueError)
  /\ (_is_leap (year today) = true ->
      ltb (occurrence (year today) v) today = true ->
      _is_leap (year today + 1) = false
      /\ Birthday.days_to_birthday today (birthday_on v) = Raise ValueError)
  /\ (_is_leap (year today) = true ->
      ltb (occurrence (year today) v) today = false ->
      Birthday.days_to_birthday today (birthday_on v)
      = Ok (Some (sub_days (occurrence (year today) v) today))).
Proof.
  intros Ht Hm Hd. pose proof (is_date_year Ht) as Hy.
  rewrite days_to_birthday_set, Hm, Hd.
  assert (Hnone : forall y, _is_leap y = false -> fields_ok y 2 29 = false).
  { intros y Hl. unfold fields_ok, _days_in_month. rewrite Hl. cbn.
    now rewrite !andb_false_r. }
  assert (Hleap : forall y, MINYEAR <= y <= MAXYEAR -> _is_leap y = true ->
                            fields_ok y 2 29 = true).
  { intros y Hy' Hl. apply fields_ok_iff. unfold _days_in_month. rewrite Hl. cbn. lia. }
  split; [|split].
  - intros Hl. now rewrite (Hnone _ Hl).
  - intros Hl Hlt. rewrite (Hleap _ Hy Hl), Hlt.
    assert (Hnext : _is_leap (year today + 1) = false).
    { unfold _is_leap in *. apply andb_true_iff in Hl. destruct Hl as [H4 _].
      apply Z.eqb_eq in H4.
      destruct (Z.eqb_spec ((year today + 1) mod 4) 0) as [E | E]; [|reflexivity].
      exfalso. revert H4 E. Z.div_mod_to_equations. lia. }
    split; [exact Hnext|]. now rewrite (Hnone _ Hnext).
  - intros Hl Hge. now rewrite (Hleap _ Hy Hl), Hge.
Qed.

Lemma leap_day_not_special_cased_witness :
  Birthday.days_to_birthday (Build_date 2023 3 1) (birthday_on (Build_date 2000 2 29))
    = Raise ValueError
  /\ Birthday.days_to_birthday (Build_date 2024 3 1) (birthday_on (Build_date 2000 2 29))
     = Raise ValueError.
Proof.
  split.
  - apply (proj1 (@leap_day_not_special_cased
                    (Build_date 2023 3 1) (Build_date 2000 2 29)
                    eq_refl eq_refl eq_refl)).
    reflexivity.
  - apply (proj1 (proj2 (@leap_day_not_special_cased
                           (Build_date 2024 3 1) (Build_date 2000 2 29)
                           eq_refl eq_refl eq_refl)));
      reflexivity.
Defined.

(** C2, as the code has it. Without a birthday [days_to_birthday] returns
    [None].  With one, provided its month and day make a date in the
    current year and, when that date is before today, in the next year too,
    it returns the number of days from today to the next occurrence of that
    month and day on or after today: counting days one by one from today
    reaches the occurrence after that many steps; the count is 0 exactly
    when the occurrence is today; the occurrence is this year's when that is
    not before today, and next year's when it is. *)
Theorem days_to_birthday_next_occurrence (today v : date) :
  is_date today ->
  fields_ok (year today) (month v) (day v) = true ->
  (ltb (occurrence (year today) v) today = true ->
   fields_ok (year today + 1) (month v) (day v) = true) ->
  Birthday.days_to_birthday today no_birthday = Ok None
  /\ exists nb,
       Birthday.days_to_birthday today (birthday_on v) = Ok (Some (sub_days nb today))
       /\ next_occurrence today (month v) (day v) nb
       /\ 0 <= sub_days nb today
       /\ Nat.iter (Z.to_nat (sub_days nb today)) tomorrow today = nb
       /\ (nb = today <-> sub_days nb today = 0)
       /\ (ltb (occurrence (year today) v) today = false ->
           nb = occurrence (year today) v)
       /\ (ltb (occurrence (year today) v) today = true ->
           nb = occurrence (year today + 1) v).
Proof.
  intros Ht Hthis Hnext. split; [reflexivity|].
  pose proof (is_date_calendar Ht) as Hc.
  assert (Hfound : forall nb,
            is_date nb -> ltb nb today = false ->
            0 <= sub_days nb today
            /\ Nat.iter (Z.to_nat (sub_days nb today)) tomorrow today = nb
            /\ (nb = today <-> sub_days nb today = 0)).
  { intros nb Hnb Hge. pose proof (is_date_calendar Hnb) as Hcn.
    destruct (days_between Hc Hcn Hge) as [H0 Hiter].
    split; [exact H0|]. split; [exact Hiter|]. split.
    - intros ->. unfold sub_days. lia.
    - intros Hz. apply toordinal_inj; auto. unfold sub_days in Hz. lia. }
  rewrite days_to_birthday_set, Hthis.
  destruct (ltb (occurrence (year today) v) today) eqn:E.
  - specialize (Hnext eq_refl). rewrite Hnext.
    assert (Hge : ltb (occurrence (year today + 1) v) today = false).
    { apply ltb_false_iff. cbn. lia. }
    exists (occurrence (year today + 1) v).
    destruct (Hfound (occurrence (year today + 1) v) Hnext Hge) as (H0 & Hiter & Hz).
    repeat split; auto; try discriminate; try apply Hz.
    intros x Hx Hxm Hxd Hxt. apply ltb_iff in E. apply ltb_false_iff in Hxt.
    apply ltb_false_iff. cbn in *. lia.
  - assert (Hd : is_date (occurrence (year today) v)) by exact Hthis.
    exists (occurrence (year today) v).
    destruct (Hfound (occurrence (year today) v) Hd E) as (H0 & Hiter & Hz).
    repeat split; auto; try discriminate; try apply Hz.
    intros x Hx Hxm Hxd Hxt. apply ltb_false_iff in Hxt.
    apply ltb_false_iff. cbn in *. lia.
Qed.

Lemma days_to_birthday_next_occurrence_witness :
  (Birthday.days_to_birthday (Build_date 2024 1 10) no_birthday = Ok None
   /\ exists nb,
        Birthday.days_to_birthday (Build_date 2024 1 10)
          (birthday_on (Build_date 1990 1 5))
        = Ok (Some (sub_days nb (Build_date 2024 1 10)))
        /\ next_occurrence (Build_date 2024 1 10) 1 5 nb
        /\ 0 <= sub_days nb (Build_date 2024 1 10)
        /\ Nat.iter (Z.to_nat (sub_days nb (Build_date 2024 1 10))) tomorrow
             (Build_date 2024 1 10) = nb
        /\ (nb = Build_date 2024 1 10 <-> sub_days nb (Build_date 2024 1 10) = 0)
        /\ (ltb (occurrence 2024 (Build_date 1990 1 5)) (Build_date 2024 1 10) = false ->
            nb = occurrence 2024 (Build_date 1990 1 5))
        /\ (ltb (occurrence 2024 (Build_date 1990 1 5)) (Build_date 2024 1 10) = true ->
            nb = occurrence (2024 + 1) (Build_date 1990 1 5)))
  /\ Birthday.days_to_birthday (Build_date 2024 1 10) (birthday_on (Build_date 1990 1 5))
     = Ok (Some 361)
  /\ Birthday.days_to_birthday (Build_date 2024 1 10) (birthday_on (Build_date 1990 2 1))
     = Ok (Some 22)
  /\ Birthday.days_to_birthday (Build_date 2024 1 10) (birthday_on (Build_date 1990 1 10))
     = Ok (Some 0).
Proof.
  split.
  - apply (@days_to_birthday_next_occurrence (Build_date 2024 1 10) (Build_date 1990 1 5));
      reflexivity.
  - repeat split; reflexivity.
Defined.

(** C2 as stated fails for a birthday on February 29: on March 1st, 2023
    the next occurrence on or after today is February 29th, 2024, yet
    [days_to_birthday] raises [ValueError] and returns no count. *)
Lemma days_to_birthday_leap_day_raises :
  Birthday.__init__ (Build_date 2023 3 1) (Some "29.02.2000")
    = Ok (birthday_on (Build_date 2000 2 29))
  /\ next_occurrence (Build_date 2023 3 1) 2 29 (Build_date 2024 2 29)
  /\ sub_days (Build_date 2024 2 29) (Build_date 2023 3 1) = 365
  /\ Birthday.days_to_birthday (Build_date 2023 3 1) (birthday_on (Build_date 2000 2 29))
     = Raise ValueError.
Proof.
  split; [reflexivity|]. split; [|split; reflexivity].
  unfold next_occurrence. repeat split; try reflexivity.
  intros x Hx Hm Hd Hxt. apply ltb_false_iff in Hxt. apply ltb_false_iff.
  cbn in *. lia.
Qed.

End DaysToBirthday.

(** * The phones of a record *)

Lemma set_phones_same (r : Record.t) : Record.set_phones (Record.phones r) r = r.
Proof. destruct r; reflexivity. Qed.

(** Either no phone has the value, or the list splits at the first one that
    has it. *)
Lemma first_with_value (phone : string) (ps : list Phone.t) :
  absent phone ps
  \/ exists before p after,
       ps = (before ++ p :: after)%list
       /\ absent phone before
       /\ Phone.value p = phone.
Proof.
  induction ps as [|p ps IH].
  - left. constructor.
  - destruct (String.eqb_spec (Phone.value p) phone) as [E | E].
    + right. exists [], p, ps. repeat split; [constructor | exact E].
    + destruct IH as [IH | (before & q & after & -> & Hb & Hq)].
      * left. now constructor.
      * right. exists (p :: before), q, after. repeat split; [now constructor | exact Hq].
Qed.

Lemma remove_first_absent (phone : string) (ps : list Phone.t) :
  absent phone ps -> Record.remove_first phone ps = (false, ps).
Proof.
  induction 1 as [|p ps Hp _ IH]; cbn; [reflexivity|].
  apply String.eqb_neq in Hp. now rewrite Hp, IH.
Qed.

Lemma remove_first_present (phone : string) (before : list Phone.t) (p : Phone.t)
    (after : list Phone.t) :
  absent phone before -> Phone.value p = phone ->
  Record.remove_first phone (before ++ p :: after) = (true, (before ++ after)%list).
Proof.
  intros Hb Hp. induction Hb as [|q before Hq _ IH]; cbn.
  - now rewrite Hp, String.eqb_refl.
  - apply String.eqb_neq in Hq. now rewrite Hq, IH.
Qed.

Lemma edit_first_absent (old_phone new_phone : string) (ps : list Phone.t) :
  absent old_phone ps -> Record.edit_first old_phone new_phone ps = (Ok false, ps).
Proof.
  induction 1 as [|p ps Hp _ IH]; cbn [Record.edit_first]; [reflexivity|].
  apply String.eqb_neq in Hp. now rewrite Hp, IH.
Qed.

Lemma edit_first_present (old_phone new_phone : string) (before : list Phone.t)
    (p : Phone.t) (after : list Phone.t) :
  absent old_phone before -> Phone.value p = old_phone ->
  Record.edit_first old_phone new_phone (before ++ p :: after)
  = (if valid_phone new_phone then Ok true else Raise ValueError,
     (before ++ {| Phone._value := new_phone |} :: after)%list).
Proof.
  intros Hb Hp. induction Hb as [|q before Hq _ IH]; cbn [Record.edit_first app].
  - rewrite Hp, String.eqb_refl, Phone_set_value_spec.
    destruct (valid_phone new_phone); reflexivity.
  - apply String.eqb_neq in Hq. now rewrite Hq, IH.
Qed.

Lemma remove_phone_first_only_aux (phone : string) (r : Record.t) :
  (absent phone (Record.phones r) -> Record.remove_phone phone r = (Ok false, r))
  /\ (forall before p after,
        Record.phones r = (before ++ p :: after)%list ->
        absent phone before -> Phone.value p = phone ->
        Record.remove_phone phone r
        = (Ok true, Record.set_phones (before ++ after) r)).
Proof.
  unfold Record.remove_phone. split.
  - intros H. rewrite remove_first_absent by exact H. now rewrite set_phones_same.
  - intros before p after Hps Hb Hp.
    rewrite Hps, remove_first_present by assumption. reflexivity.
Qed.

Lemma edit_phone_first_only_aux (old_phone new_phone : string) (r : Record.t) :
  (absent old_phone (Record.phones r) ->
   Record.edit_phone old_phone new_phone r = (Ok false, r))
  /\ (forall before p after,
        Record.phones r = (before ++ p :: after)%list ->
        absent old_phone before -> Phone.value p = old_phone ->
        Record.edit_phone old_phone new_phone r
        = (if valid_phone new_phone then Ok true else Raise ValueError,
           Record.set_phones (before ++ {| Phone._value := new_phone |} :: after) r)).
Proof.
  unfold Record.edit_phone. split.
  - intros H. rewrite edit_first_absent by exact H. now rewrite set_phones_same.
  - intros before p after Hps Hb Hp.
    rewrite Hps, edit_first_present by assumption. reflexivity.
Qed.

(** X2. [remove_phone] on a value no phone has returns false and leaves the
    record as it was; otherwise it returns true and takes out the first phone
    with that value, and that one only. It never raises. *)
Theorem remove_phone_first_only (phone : string) (r : Record.t) :
  (absent phone (Record.phones r) -> Record.remove_phone phone r = (Ok false, r))
  /\ (forall before p after,
        Record.phones r = (before ++ p :: after)%list ->
        absent phone before -> Phone.value p = phone ->
        Record.remove_phone phone r
        = (Ok true, Record.set_phones (before ++ after) r)).
Proof. apply remove_phone_first_only_aux. Qed.

Lemma remove_phone_first_only_witness :
  Record.remove_phone "222222222"
    (Record.set_phones
       [ {| Phone._value := "111111111" |}; {| Phone._value := "222222222" |};
         {| Phone._value := "222222222" |} ] (bare_record "ann"))
  = (Ok true,
     Record.set_phones
       [ {| Phone._value := "111111111" |}; {| Phone._value := "222222222" |} ]
       (bare_record "ann"))
  /\ Record.remove_phone "999999999" (fresh_record "ann" "111111111")
     = (Ok false, fresh_record "ann" "111111111").
Proof.
  split.
  - apply (proj2 (remove_phone_first_only "222222222"
             (Record.set_phones
                [ {| Phone._value := "111111111" |}; {| Phone._value := "222222222" |};
                  {| Phone._value := "222222222" |} ] (bare_record "ann")))
             [ {| Phone._value := "111111111" |} ] {| Phone._value := "222222222" |}
             [ {| Phone._value := "222222222" |} ]).
    + reflexivity.
    + repeat constructor. discriminate.
    + reflexivity.
  - apply (proj1 (remove_phone_first_only "999999999" (fresh_record "ann" "111111111"))).
    repeat constructor. discriminate.
Defined.

(** X3. [edit_phone] on an old value no phone has returns false and leaves the
    record as it was.  Otherwise it writes the new value into the first
    phone with the old value, and into that one only; it returns true when
    the new value is valid and raises [ValueError] when it is not, the new
    value being stored in both cases. *)
Theorem edit_phone_first_only (old_phone new_phone : string) (r : Record.t) :
  (absent old_phone (Record.phones r) ->
   Record.edit_phone old_phone new_phone r = (Ok false, r))
  /\ (forall before p after,
        Record.phones r = (before ++ p :: after)%list ->
        absent old_phone before -> Phone.value p = old_phone ->
        Record.edit_phone old_phone new_phone r
        = (if valid_phone new_phone then Ok true else Raise ValueError,
           Record.set_phones (before ++ {| Phone._value := new_phone |} :: after) r)).
Proof. apply edit_phone_first_only_aux. Qed.

Lemma edit_phone_first_only_witness :
  Record.edit_phone "222222222" "+333333333"
    (Record.set_phones
       [ {| Phone._value := "111111111" |}; {| Phone._value := "222222222" |};
         {| Phone._value := "222222222" |} ] (bare_record "ann"))
  = (Ok true,
     Record.set_phones
       [ {| Phone._value := "111111111" |}; {| Phone._value := "+333333333" |};
         {| Phone._value := "222222222" |} ] (bare_record "ann"))
  /\ Record.edit_phone "999999999" "+333333333" (fresh_record "ann" "111111111")
     = (Ok false, fresh_record "ann" "111111111").
Proof.
  split.
  - apply (proj2 (edit_phone_first_only "222222222" "+333333333"
             (Record.set_phones
                [ {| Phone._value := "111111111" |}; {| Phone._value := "222222222" |};
                  {| Phone._value := "222222222" |} ] (bare_record "ann")))
             [ {| Phone._value := "111111111" |} ] {| Phone._value := "222222222" |}
             [ {| Phone._value := "222222222" |} ]).
    + reflexivity.
    + repeat constructor. discriminate.
    + reflexivity.
  - apply (proj1 (edit_phone_first_only "999999999" "+333333333"
                    (fresh_record "ann" "111111111"))).
    repeat constructor. discriminate.
Defined.

Lemma absent_or_valid_app (before after : list Phone.t) (p : Phone.t) :
  Forall (fun q => valid_phone (Phone.value q) = true) (before ++ p :: after) ->
  Forall (fun q => valid_phone (Phone.value q) = true) before
  /\ Forall (fun q => valid_phone (Phone.value q) = true) after.
Proof.
  intros H. apply Forall_app in H. destruct H as [Hb Ha].
  inversion Ha; subst. auto.
Qed.

(** X4. [Record(...)] builds a record whose phones are all valid, and
    [add_phone], [remove_phone] and an [edit_phone] that returns keep them
    so; [add_phone] does whether it returns or raises. *)
Theorem record_valid_kept :
  (forall today name phone birthday r,
     Record.__init__ today name phone birthday = Ok r -> record_valid r)
  /\ (forall phone r,
        record_valid r -> record_valid (snd (Record.add_phone phone r)))
  /\ (forall phone r,
        record_valid r -> record_valid (snd (Record.remove_phone phone r)))
  /\ (forall old_phone new_phone r found r',
        record_valid r ->
        Record.edit_phone old_phone new_phone r = (Ok found, r') ->
        record_valid r').
Proof.
  split; [|split; [|split]].
  - intros today name phone birthday r. unfold Record.__init__, Name.__init__.
    destruct (String.eqb name ""); [discriminate|]. cbn [rbind].
    assert (Hend : forall self,
              record_valid self ->
              rbind (Birthday.__init__ today birthday)
                (fun b => Ok {| Record.name := Record.name self;
                                Record.phones := Record.phones self;
                                Record.birthday := b |}) = Ok r ->
              record_valid r).
    { intros self Hself. destruct (Birthday.__init__ today birthday); [|discriminate].
      cbn. intros [= <-]. exact Hself. }
    destruct phone as [p|]; [|apply Hend; constructor].
    destruct (String.eqb p ""); [apply Hend; constructor|].
    rewrite add_phone_spec. destruct (valid_phone p) eqn:Hp; [|discriminate].
    cbn [rbind]. apply Hend. unfold record_valid. cbn. now repeat constructor.
  - intros phone r Hr. rewrite add_phone_spec.
    destruct (valid_phone phone) eqn:Hp; [|exact Hr].
    unfold record_valid in *. cbn. apply Forall_app. split; [exact Hr|].
    now repeat constructor.
  - intros phone r Hr. unfold record_valid in *.
    destruct (first_with_value phone (Record.phones r))
      as [Ha | (before & p & after & Hps & Hb & Hp)].
    + rewrite (proj1 (remove_phone_first_only_aux phone r) Ha). exact Hr.
    + rewrite (proj2 (remove_phone_first_only_aux phone r) _ _ _ Hps Hb Hp).
      cbn. rewrite Hps in Hr. apply absent_or_valid_app in Hr.
      apply Forall_app. tauto.
  - intros old_phone new_phone r found r' Hr. unfold record_valid in *.
    destruct (first_with_value old_phone (Record.phones r))
      as [Ha | (before & p & after & Hps & Hb & Hp)].
    + rewrite (proj1 (edit_phone_first_only_aux old_phone new_phone r) Ha).
      intros [= _ <-]. exact Hr.
    + rewrite (proj2 (edit_phone_first_only_aux old_phone new_phone r) _ _ _ Hps Hb Hp).
      destruct (valid_phone new_phone) eqn:Hn; [|discriminate].
      intros [= _ <-]. cbn. rewrite Hps in Hr. apply absent_or_valid_app in Hr.
      apply Forall_app. split; [tauto|]. constructor; [exact Hn | tauto].
Qed.

(** * The handlers and the book *)

Lemma change_body_not_three (line : string) (book : AddressBook.t) :
  List.length (Str.split line) <> 3 ->
  change_body line book = (Raise ValueError, book).
Proof.
  intros H. unfold change_body, bind, lift.
  destruct (Str.split line) as [|a [|b [|c [|d l]]]]; cbn in *; try reflexivity.
  congruence.
Qed.

(** What [change] does to a contact that has a phone: the setter runs on
    the first phone. *)
Lemma change_body_first_phone (line c name phone : string) (book : AddressBook.t)
    (r : Record.t) (p : Phone.t) (rest : list Phone.t) :
  Str.split line = [c; name; phone] ->
  AddressBook.lookup name book = Some r ->
  Record.phones r = p :: rest ->
  change_body line book
  = (if valid_phone phone
     then Ok ("Phone number for contact " ++ name ++ " changed.")
     else Raise ValueError,
     AddressBook.setitem name
       (Record.set_phones ({| Phone._value := phone |} :: rest) r) book).
Proof.
  intros Hs Hl Hp. rewrite (change_body_three _ book Hs), Hl, Hp.
  unfold Record.edit_phone. rewrite Hp. cbn [Record.edit_first].
  rewrite String.eqb_refl, Phone_set_value_spec.
  destruct (valid_phone phone); reflexivity.
Qed.

Lemma names_setitem_present (k : string) (v v' : Record.t) (d : AddressBook.t) :
  AddressBook.lookup k d = Some v -> names (AddressBook.setitem k v' d) = names d.
Proof.
  unfold names. induction d as [|[k0 v0] d IH]; cbn; [discriminate|].
  destruct (String.eqb k0 k) eqn:E; cbn; [reflexivity|].
  intros H. now rewrite IH.
Qed.

Lemma names_setitem_absent (k : string) (v : Record.t) (d : AddressBook.t) :
  AddressBook.lookup k d = None ->
  names (AddressBook.setitem k v d) = (names d ++ [k])%list.
Proof.
  unfold names. induction d as [|[k0 v0] d IH]; cbn; [reflexivity|].
  destruct (String.eqb k0 k) eqn:E; cbn; [discriminate|].
  intros H. now rewrite IH.
Qed.

(** X5. [change <name> <phone>] with a valid phone, on a contact that has
    phones, writes the phone over the first one and leaves the contact's
    other phones, its name and its birthday alone; it returns the
    confirmation. *)
Theorem change_replaces_first_phone (line c name phone : string)
    (book : AddressBook.t) (r : Record.t) (p : Phone.t) (rest : list Phone.t) :
  Str.split line = [c; name; phone] ->
  AddressBook.lookup name book = Some r ->
  Record.phones r = p :: rest ->
  valid_phone phone = true ->
  exists book',
    change line book = (Ok ("Phone number for contact " ++ name ++ " changed."), book')
    /\ AddressBook.lookup name book'
       = Some {| Record.name := Record.name r;
                 Record.phones := {| Phone._value := phone |} :: rest;
                 Record.birthday := Record.birthday r |}.
Proof.
  intros Hs Hl Hp Hv. eexists. split.
  - unfold change, input_error.
    rewrite (change_body_first_phone _ book Hs Hl Hp), Hv. reflexivity.
  - apply lookup_setitem.
Qed.

Lemma change_replaces_first_phone_witness :
  exists book',
    change "change ann +380501234567"
      [("ann", Record.set_phones
                 [ {| Phone._value := "111111111" |}; {| Phone._value := "222222222" |} ]
                 (bare_record "ann"))]
    = (Ok "Phone number for contact ann changed.", book')
    /\ AddressBook.lookup "ann" book'
       = Some {| Record.name := {| Name.value := "ann" |};
                 Record.phones := [ {| Phone._value := "+380501234567" |};
                                    {| Phone._value := "222222222" |} ];
                 Record.birthday := {| Birthday._value := None |} |}.
Proof.
  apply (@change_replaces_first_phone "change ann +380501234567" "change" "ann"
           "+380501234567"
           [("ann", Record.set_phones
                      [ {| Phone._value := "111111111" |};
                        {| Phone._value := "222222222" |} ]
                      (bare_record "ann"))]
           (Record.set_phones
              [ {| Phone._value := "111111111" |}; {| Phone._value := "222222222" |} ]
              (bare_record "ann"))
           {| Phone._value := "111111111" |} [ {| Phone._value := "222222222" |} ]);
    reflexivity.
Defined.

(** X6. [change] never adds or removes a contact, whatever the line, and it
    leaves every contact alone that is not the second token of the line. *)
Theorem change_keeps_contacts (line : string) (book : AddressBook.t) :
  names (snd (change line book)) = names book
  /\ forall other,
       nth_error (Str.split line) 1 <> Some other ->
       AddressBook.lookup other (snd (change line book))
       = AddressBook.lookup other book.
Proof.
  unfold change, input_error.
  destruct (Nat.eq_dec (List.length (Str.split line)) 3) as [E | E].
  - destruct (Str.split line) as [|c [|name [|phone [|d l]]]] eqn:Hs; try discriminate E.
    rewrite (change_body_three _ book Hs).
    destruct (AddressBook.lookup name book) as [r|] eqn:Hl; [|split; reflexivity].
    destruct (Record.phones r) as [|p rest] eqn:Hp; [split; reflexivity|].
    assert (Hset : forall r',
              names (AddressBook.setitem name r' book) = names book
              /\ forall other,
                   nth_error [c; name; phone] 1 <> Some other ->
                   AddressBook.lookup other (AddressBook.setitem name r' book)
                   = AddressBook.lookup other book).
    { intros r'. split; [now apply (@names_setitem_present name r r' book)|].
      intros other Ho. apply lookup_setitem_other. cbn in Ho. congruence. }
    destruct (Record.edit_phone (Phone.value p) phone r) as [[found|[]] r'];
      cbn [fst snd]; apply Hset.
  - rewrite (@change_body_not_three line book E). split; reflexivity.
Qed.

Lemma change_keeps_contacts_witness :
  AddressBook.lookup "bob" (snd (change "change ann 999999999" five_contacts))
  = AddressBook.lookup "bob" five_contacts.
Proof.
  apply (proj2 (change_keeps_contacts "change ann 999999999" five_contacts)).
  cbn. discriminate.
Defined.

(** The handlers that only read: the book they leave is the book they
    got. *)
Lemma phone_body_frame (line : string) (book : AddressBook.t) :
  snd (phone_body line book) = book
  /\ fst (phone_body line book) <> Raise AttributeError.
Proof.
  unfold phone_body, bind, lift, ret, get.
  destruct (unpack2 (Str.split line)) as [[c name]|e] eqn:Hu.
  - unfold AddressBook.contains, AddressBook.getitem.
    destruct (AddressBook.lookup name book) as [r|] eqn:Hl; cbv beta iota.
    + rewrite Hl, Record_str_total. cbn. split; [reflexivity | discriminate].
    + cbn. split; [reflexivity | discriminate].
  - cbn. split; [reflexivity|].
    unfold unpack2 in Hu.
    destruct (Str.split line) as [|a [|b [|d l]]]; try discriminate Hu;
      injection Hu as <-; discriminate.
Qed.

Lemma show_all_body_frame (line : string) (book : AddressBook.t) :
  snd (show_all_body line book) = book
  /\ exists text, fst (show_all_body line book) = Ok text.
Proof.
  unfold show_all_body, bind, lift, ret, get.
  destruct book as [|item book]; cbv beta iota.
  - split; [reflexivity | eexists; reflexivity].
  - rewrite render_total. cbn. split; [reflexivity | eexists; reflexivity].
Qed.

Lemma change_body_raises (line : string) (book : AddressBook.t) :
  fst (change_body line book) <> Raise AttributeError
  /\ fst (change_body line book) <> Raise KeyError.
Proof.
  destruct (Nat.eq_dec (List.length (Str.split line)) 3) as [E | E].
  - destruct (Str.split line) as [|c [|name [|phone [|d l]]]] eqn:Hs; try discriminate E.
    destruct (AddressBook.lookup name book) as [r|] eqn:Hl.
    + destruct (Record.phones r) as [|p rest] eqn:Hp.
      * rewrite (change_body_three _ book Hs), Hl, Hp. cbn. split; discriminate.
      * rewrite (change_body_first_phone _ book Hs Hl Hp).
        destruct (valid_phone phone); cbn; split; discriminate.
    + rewrite (change_body_three _ book Hs), Hl. cbn. split; discriminate.
  - rewrite (@change_body_not_three line book E). cbn. split; discriminate.
Qed.

Lemma input_error_returns (func : handler) (line : string) (book : AddressBook.t) :
  fst (func line book) <> Raise AttributeError ->
  exists msg,
    input_error func line book = (Ok msg, snd (func line book)).
Proof.
  unfold input_error. destruct (func line book) as [[msg|[]] book']; cbn;
    intros H; try (eexists; reflexivity). congruence.
Qed.

(** Every command returns: whatever the line and the book, the decorated
    handler answers with a message. *)
Lemma call_returns (today : datetime.date) (c : command) (line : string)
    (book : AddressBook.t) :
  exists msg book', call today c line book = (Ok msg, book').
Proof.
  destruct c; cbn [call].
  - eexists _, _. reflexivity.
  - unfold add. destruct (@input_error_returns (add_body today) line book) as [msg H].
    + destruct (add_body_cases today line book) as [(n & p & b & ->) | ->];
        cbn; discriminate.
    + eauto.
  - unfold change. destruct (@input_error_returns change_body line book) as [msg H].
    + apply change_body_raises.
    + eauto.
  - unfold phone. destruct (@input_error_returns phone_body line book) as [msg H].
    + apply phone_body_frame.
    + eauto.
  - unfold show_all. destruct (@input_error_returns show_all_body line book) as [msg H].
    + destruct (show_all_body_frame line book) as [_ [text ->]]. discriminate.
    + eauto.
  - eexists _, _. reflexivity.
Qed.

Lemma reads_only_frame (today : datetime.date) (c : command) (line : string)
    (book : AddressBook.t) :
  reads_only c = true -> snd (call today c line book) = book.
Proof.
  destruct c; cbn [reads_only call]; try discriminate; intros _.
  - reflexivity.
  - unfold phone.
    destruct (@input_error_returns phone_body line book) as [msg ->];
      apply phone_body_frame.
  - unfold show_all.
    destruct (@input_error_returns show_all_body line book) as [msg ->].
    + destruct (show_all_body_frame line book) as [_ [text ->]]. discriminate.
    + apply show_all_body_frame.
  - reflexivity.
Qed.

(** X7. [hello], [phone], [show all] and [exit] leave the book as it is,
    whatever the line; so does a line that is no command. *)
Theorem reading_commands_keep_book (today : datetime.date) (line : string)
    (book : AddressBook.t) :
  (forall c, reads_only c = true -> snd (call today c line book) = book)
  /\ (fst (command_handler line) = None -> snd (main_round today line book) = book)
  /\ (forall c, fst (command_handler line) = Some c -> reads_only c = true ->
        snd (main_round today line book) = book).
Proof.
  split; [|split].
  - intros c Hc. now apply reads_only_frame.
  - unfold main_round. destruct (command_handler line) as [[c|] data]; cbn;
      [discriminate | reflexivity].
  - unfold main_round, bind, ret. unfold command_handler.
    intros c Hc Hr.
    destruct (command_handler_from COMMANDS line) as [[c'|] data] eqn:E;
      cbn in Hc; [|discriminate]. injection Hc as ->.
    pose proof (reads_only_frame today c data book Hr) as Hf.
    destruct (call today c data book) as [[msg|e] book']; cbn in *; exact Hf.
Qed.

Lemma reading_commands_keep_book_witness :
  snd (main_round (datetime.Build_date 2024 1 10) "phone ann" five_contacts)
  = five_contacts.
Proof.
  apply (proj2 (proj2 (reading_commands_keep_book
                         (datetime.Build_date 2024 1 10) "phone ann" five_contacts))
           PhoneOf); reflexivity.
Defined.

(** X8. A command that does not answer "Please enter a valid command." leaves
    a book of valid phones a book of valid phones; every command but
    [change] does so whatever it answers. *)
Theorem commands_keep_valid (today : datetime.date) (c : command) (line : string)
    (book : AddressBook.t) :
  book_valid book ->
  c <> Change \/ fst (call today c line book) <> Ok "Please enter a valid command." ->
  book_valid (snd (call today c line book)).
Proof.
  intros Hv Hc.
  destruct (reads_only c) eqn:Hr; [now rewrite reads_only_frame|].
  destruct c; try discriminate Hr; cbn [call] in *.
  - now apply add_preserves_valid.
  - destruct Hc as [Hc | Hc]; [congruence|].
    unfold change, input_error in *.
    destruct (Nat.eq_dec (List.length (Str.split line)) 3) as [E | E].
    + destruct (Str.split line) as [|c [|name [|phone [|d l]]]] eqn:Hs;
        try discriminate E.
      destruct (AddressBook.lookup name book) as [r|] eqn:Hl.
      * destruct (Record.phones r) as [|p rest] eqn:Hp.
        -- rewrite (change_body_three _ book Hs), Hl, Hp. exact Hv.
        -- rewrite (change_body_first_phone _ book Hs Hl Hp) in *.
           destruct (valid_phone phone) eqn:Hn; [|cbn in Hc; congruence].
           cbn. apply setitem_Forall; [exact Hv|]. cbn.
           assert (Hr' : record_valid r).
           { clear - Hv Hl. induction book as [|[k v] book IH]; cbn in Hl;
               [discriminate|]. inversion Hv; subst.
             destruct (String.eqb k name); [injection Hl as <-; assumption | auto]. }
           unfold record_valid in *. cbn. rewrite Hp in Hr'.
           inversion Hr'; subst. now constructor.
      * rewrite (change_body_three _ book Hs), Hl. exact Hv.
    + rewrite (@change_body_not_three line book E). exact Hv.
Qed.

Lemma commands_keep_valid_witness :
  book_valid
    (snd (call (datetime.Build_date 2024 1 10) Change "change ann +380501234567"
            five_contacts)).
Proof.
  apply (@commands_keep_valid (datetime.Build_date 2024 1 10) Change
           "change ann +380501234567" five_contacts).
  - repeat constructor.
  - right. cbn. discriminate.
Defined.

(** * The loop *)

Lemma main_round_returns (today : datetime.date) (line : string) (book : AddressBook.t) :
  exists out book',
    main_round today line book
    = (Ok (out, match fst (command_handler line) with
                | Some c => is_exit c
                | None => false
                end), book').
Proof.
  unfold main_round, bind, ret.
  destruct (command_handler line) as [[c|] data]; cbn [fst].
  - destruct (call_returns today c data book) as (msg & book' & ->). eauto.
  - eauto.
Qed.

(** X9. No command raises: whatever the line and the book, each of the six
    decorated handlers returns a message, since the bodies raise nothing but
    the three classes [input_error] catches; so a round of the loop on any
    line it has read prints an answer and raises nothing. *)
Theorem commands_never_raise (today : datetime.date) (line : string)
    (book : AddressBook.t) :
  (forall c, exists msg book', call today c line book = (Ok msg, book'))
  /\ exists out stop book',
       main_round today line book = (Ok (out, stop), book').
Proof.
  split; [intros c; apply call_returns|].
  destruct (main_round_returns today line book) as (out & book' & H).
  eauto.
Qed.

(** X10. [main] breaks at the first line that dispatches to [exit]: it prints
    "Goodbye!" after the answers to the lines before, reads no line after,
    and leaves the book the lines before have made. *)
Theorem main_stops_at_exit (today : datetime.date) (before : list string)
    (line : string) (after : list string) (book : AddressBook.t) :
  Forall (fun l => fst (command_handler l) <> Some Exit) before ->
  fst (command_handler line) = Some Exit ->
  exists printed book',
    main today before book = (Ok (printed, AwaitingInput), book')
    /\ main today (before ++ line :: after) book
       = (Ok ((printed ++ ["Goodbye!"])%list, Terminated), book').
Proof.
  intros Hb Hl. revert book. induction Hb as [|l before Hx _ IH]; intros book.
  - exists [], book. split; [reflexivity|].
    cbn [app main]. unfold bind at 1. unfold main_round.
    destruct (command_handler line) as [[c|] data]; cbn in Hl; [|discriminate].
    injection Hl as ->. reflexivity.
  - cbn [app main]. unfold bind at 1 3.
    destruct (main_round_returns today l book) as (out & book1 & ->).
    cbn [snd fst].
    assert (Hne : match fst (command_handler l) with
                  | Some c => is_exit c
                  | None => false
                  end = false).
    { destruct (fst (command_handler l)) as [[]|]; try reflexivity. congruence. }
    rewrite Hne. unfold bind, ret.
    destruct (IH book1) as (printed & book' & -> & ->).
    exists (out :: printed), book'. split; reflexivity.
Qed.

Lemma main_stops_at_exit_witness :
  exists printed book',
    main (datetime.Build_date 2024 1 10) ["hello"; "add ann 111111111"] []
    = (Ok (printed, AwaitingInput), book')
    /\ main (datetime.Build_date 2024 1 10)
         (["hello"; "add ann 111111111"] ++ "EXIT now" :: ["add bob 222222222"]) []
       = (Ok ((printed ++ ["Goodbye!"])%list, Terminated), book').
Proof.
  apply (@main_stops_at_exit (datetime.Build_date 2024 1 10)
           ["hello"; "add ann 111111111"] "EXIT now" ["add bob 222222222"] []).
  - repeat constructor; cbn; discriminate.
  - reflexivity.
Defined.

(** * Keywords *)

Lemma prefix_cons (c : ascii) (pre s : string) :
  String.prefix (String c pre) s = true ->
  exists s', s = String c s' /\ String.prefix pre s' = true.
Proof.
  destruct s as [|c' s']; cbn; [discriminate|].
  destruct (ascii_dec c c') as [<- | _]; [eauto | discriminate].
Qed.

(** X11. No line has two keywords as prefixes, so a command is selected exactly
    when its own keyword is a prefix of the lowered line: the order of
    [COMMANDS] decides nothing. *)
Theorem keywords_exclude_each_other (text : string) (c : command) :
  command_handler text = (Some c, text)
  <-> exists keyword,
        In (c, keyword) COMMANDS
        /\ Str.startswith (Str.lower text) keyword = true.
Proof.
  split.
  - intros H. apply command_handler_from_some in H.
    destruct H as (before & keyword & after & Hc & Hk & _).
    exists keyword. split; [|exact Hk]. rewrite Hc. apply in_elt.
  - intros (keyword & Hin & Hk).
    unfold command_handler, COMMANDS, Str.startswith in *.
    cbn [In] in Hin.
    repeat (destruct Hin as [Hin | Hin]; [injection Hin as <- <- |]);
      try contradiction;
      apply prefix_cons in Hk; destruct Hk as (s' & Hs & Hk);
      cbn [command_handler_from]; unfold Str.startswith; rewrite Hs;
      cbn -[String.prefix];
      repeat match goal with
             | |- context [String.prefix (String ?a ?p) (String ?b ?s)] =>
                 let v := eval cbn in (String.prefix (String a p) (String b s)) in
                 change (String.prefix (String a p) (String b s)) with v
             end;
      try reflexivity;
      rewrite ?Hk; reflexivity.
Qed.

(** * Adding and looking up *)

Lemma phone_body_two (line c name : string) (book : AddressBook.t) :
  Str.split line = [c; name] ->
  phone_body line book
  = (Ok (match AddressBook.lookup name book with
         | Some r => "Phone number for contact " ++ name ++ " is " ++ text_of r ++ "."
         | None => "Contact with name " ++ name ++ " is not defined."
         end), book).
Proof.
  intros Hs. unfold phone_body, bind, lift, ret, get. rewrite Hs. cbn [unpack2].
  unfold AddressBook.contains, AddressBook.getitem.
  destruct (AddressBook.lookup name book) as [r|] eqn:Hl; cbv beta iota;
    [|reflexivity].
  rewrite Hl, Record_str_total. reflexivity.
Qed.

Lemma append_nil_r (s : string) : s ++ "" = s.
Proof. induction s as [|c s IH]; cbn; [reflexivity | now rewrite IH]. Qed.

Lemma append_assoc (s1 s2 s3 : string) : (s1 ++ s2) ++ s3 = s1 ++ (s2 ++ s3).
Proof. induction s1 as [|c s1 IH]; cbn; [reflexivity | now rewrite IH]. Qed.

(** X12. What [add <name> <phone>] has stored, [phone <name>] shows: after an
    [add] with a valid phone the answer of [phone] is the text of the new
    record, its name and that one phone, whatever the book held before. *)
Theorem add_then_phone (today : datetime.date) (line c name number : string)
    (line' c' : string) (book : AddressBook.t) :
  Str.split line = [c; name; number] ->
  valid_phone number = true ->
  Str.split line' = [c'; name] ->
  fst (phone line' (snd (add today line book)))
  = Ok ("Phone number for contact " ++ name ++ " is Name: " ++ name
        ++ ", Phone: " ++ number ++ ".").
Proof.
  intros Hs Hv Hs'. unfold add, phone, input_error.
  rewrite (add_body_three today _ book Hs), Hv. cbn [snd].
  rewrite (@phone_body_two line' c' name _ Hs'), lookup_setitem. cbn [fst].
  f_equal. unfold text_of, Record.__str__, fresh_record, Name.__str__, Phone.__str__,
    Birthday.value, Phone.value.
  cbn [Record.name Record.phones Record.birthday Birthday._value Phone._value
       Name.value map Str.join rbind].
  rewrite append_nil_r, !append_assoc. reflexivity.
Qed.

Lemma add_then_phone_witness :
  fst (phone "phone john"
         (snd (add (datetime.Build_date 2024 1 10) "add john 1234567890" john_book)))
  = Ok "Phone number for contact john is Name: john, Phone: 1234567890.".
Proof.
  apply (@add_then_phone (datetime.Build_date 2024 1 10) "add john 1234567890"
           "add" "john" "1234567890" "phone john" "phone" john_book);
    reflexivity.
Defined.

Lemma lookup_none_names (k : string) (d : AddressBook.t) :
  AddressBook.lookup k d = None <-> ~ In k (names d).
Proof.
  unfold names. induction d as [|[k0 v0] d IH]; cbn.
  - tauto.
  - destruct (String.eqb_spec k0 k) as [-> | Hne].
    + split; [discriminate | tauto].
    + rewrite IH. tauto.
Qed.

(** X13. [add_record] stores the record under its name: looking the name up
    gives the record back, every other contact is as before, a name that was
    there keeps its place, a new name goes to the end, and no name comes to
    be there twice. *)
Theorem add_record_stores (record : Record.t) (book : AddressBook.t) :
  let name := Name.value (Record.name record) in
  let book' := snd (AddressBook.add_record record book) in
  fst (AddressBook.add_record record book) = Ok tt
  /\ AddressBook.lookup name book' = Some record
  /\ (forall other, other <> name ->
        AddressBook.lookup other book' = AddressBook.lookup other book)
  /\ (AddressBook.contains name book = true -> names book' = names book)
  /\ (AddressBook.contains name book = false -> names book' = (names book ++ [name])%list)
  /\ (NoDup (names book) -> NoDup (names book')).
Proof.
  cbn zeta. unfold AddressBook.add_record, AddressBook.contains. cbn [fst snd].
  set (name := Name.value (Record.name record)).
  split; [reflexivity|]. split; [apply lookup_setitem|].
  split; [intros other Ho; now apply lookup_setitem_other|].
  destruct (AddressBook.lookup name book) as [r|] eqn:Hl.
  - split; [|split].
    + intros _. now apply (@names_setitem_present name r record book).
    + discriminate.
    + now rewrite (@names_setitem_present name r record book Hl).
  - split; [discriminate|]. split.
    + intros _. now apply names_setitem_absent.
    + intros Hnd. rewrite (@names_setitem_absent name record book Hl).
      apply lookup_none_names in Hl.
      apply NoDup_app; [exact Hnd | repeat constructor; cbn; tauto |].
      intros x Hx [<- | []]. contradiction.
Qed.

Lemma add_record_stores_witness :
  names (snd (AddressBook.add_record (fresh_record "bob" "999999999") five_contacts))
  = names five_contacts.
Proof.
  apply (proj1 (proj2 (proj2 (proj2
           (add_record_stores (fresh_record "bob" "999999999") five_contacts))))).
  reflexivity.
Defined.

(** * More on the iterator *)

(** Batches of 1 to [n] texts of which all but the last are full are as
    many as the texts divided by [n], rounded up. *)
Lemma count_of_batches (n : Z) (batches : list (list string)) :
  (0 < n)%Z ->
  Forall (fun b => (1 <= List.length b <= Z.to_nat n)%nat) batches ->
  (forall before b after,
     batches = (before ++ b :: after)%list -> after <> [] ->
     List.length b = Z.to_nat n) ->
  Z.of_nat (List.length batches)
  = ((Z.of_nat (List.length (List.concat batches)) + n - 1) / n)%Z.
Proof.
  intros Hn Hf. induction Hf as [|b rest Hb Hrest IH]; intros Hfull.
  - cbn. symmetry. apply Z.div_small. lia.
  - cbn [List.concat List.length]. rewrite length_app.
    destruct rest as [|b' rest'].
    + cbn. rewrite Nat.add_0_r.
      apply (Z.div_unique _ _ 1 (Z.of_nat (List.length b) - 1)); lia.
    + assert (Hlen : List.length b = Z.to_nat n).
      { apply (Hfull [] b (b' :: rest')); [reflexivity | discriminate]. }
      rewrite Nat2Z.inj_succ, IH.
      * rewrite Nat2Z.inj_add, Hlen, Z2Nat.id by lia.
        replace (n + Z.of_nat (List.length (List.concat (b' :: rest'))) + n - 1)%Z
          with (Z.of_nat (List.length (List.concat (b' :: rest'))) + n - 1 + 1 * n)%Z
          by lia.
        rewrite Z.div_add by lia. lia.
      * intros before b0 after Hsplit Hne.
        apply (Hfull (b :: before) b0 after); [now rewrite Hsplit | exact Hne].
Qed.

(** X15. [iterator(n)] for [n > 0] yields as many batches as the number of
    contacts divided by [n], rounded up, and none on an empty book. *)
Theorem iterator_count (book : AddressBook.t) (n : Z) :
  (0 < n)%Z ->
  exists batches,
    AddressBook.drain book (S (List.length book)) (AddressBook.iterator n)
    = Ok (batches, true)
    /\ Z.of_nat (List.length batches)
       = ((Z.of_nat (List.length book) + n - 1) / n)%Z.
Proof.
  intros Hn.
  destruct (@drain_from book n Hn (map snd book) (S (List.length book)) 0%Z)
    as (batches & Hd & Hc & Hf & Hl).
  - lia.
  - cbn [Z.to_nat skipn]. rewrite length_map. lia.
  - exists batches. split.
    + rewrite <- Hd. cbn [AddressBook.drain AddressBook.next AddressBook.iterator].
      destruct (Z.eqb_spec n 0); [lia | reflexivity].
    + rewrite (count_of_batches Hn Hf Hl), Hc. cbn [Z.to_nat skipn].
      now rewrite !length_map.
Qed.

Lemma iterator_count_witness :
  exists batches,
    AddressBook.drain five_contacts (S (List.length five_contacts))
      (AddressBook.iterator 2)
    = Ok (batches, true)
    /\ Z.of_nat (List.length batches)
       = ((Z.of_nat (List.length five_contacts) + 2 - 1) / 2)%Z.
Proof.
  apply (@iterator_count five_contacts 2%Z). reflexivity.
Defined.

(** * Birthdays *)

Section Birthdays.

Import datetime.
Local Open Scope Z_scope.

Lemma isdigit_val (c : ascii) :
  Str.isdigit c = true -> 0 <= digit_val c <= 9 /\ digit_char (digit_val c) = c.
Proof.
  destruct c as [[] [] [] [] [] [] [] []]; intros H; try discriminate H;
    repeat split; try reflexivity; vm_compute; discriminate.
Qed.

Lemma digit_char_mod (n : Z) : digit_char n = digit_char (n mod 10).
Proof. unfold digit_char. now rewrite Z.mod_mod by lia. Qed.

Lemma digit_char_val (n : Z) :
  Str.isdigit (digit_char n) = true /\ digit_val (digit_char n) = n mod 10.
Proof.
  rewrite digit_char_mod.
  assert (H : 0 <= n mod 10 < 10) by (apply Z.mod_pos_bound; lia).
  assert (E : n mod 10 = 0 \/ n mod 10 = 1 \/ n mod 10 = 2 \/ n mod 10 = 3
              \/ n mod 10 = 4 \/ n mod 10 = 5 \/ n mod 10 = 6 \/ n mod 10 = 7
              \/ n mod 10 = 8 \/ n mod 10 = 9) by lia.
  repeat (destruct E as [E | E]); rewrite E; split; reflexivity.
Qed.

Lemma pad2_digits (c1 c2 : ascii) :
  Str.isdigit c1 = true -> Str.isdigit c2 = true ->
  pad2 (10 * digit_val c1 + digit_val c2) = String c1 (String c2 "").
Proof.
  intros H1 H2.
  destruct (isdigit_val _ H1) as [B1 E1], (isdigit_val _ H2) as [B2 E2].
  unfold pad2.
  replace ((10 * digit_val c1 + digit_val c2) / 10) with (digit_val c1)
    by (Z.div_mod_to_equations; lia).
  rewrite (digit_char_mod (10 * digit_val c1 + digit_val c2)).
  replace ((10 * digit_val c1 + digit_val c2) mod 10) with (digit_val c2)
    by (Z.div_mod_to_equations; lia).
  now rewrite E1, E2.
Qed.

Lemma pad4_digits (c1 c2 c3 c4 : ascii) :
  Str.isdigit c1 = true -> Str.isdigit c2 = true ->
  Str.isdigit c3 = true -> Str.isdigit c4 = true ->
  pad4 (1000 * digit_val c1 + 100 * digit_val c2 + 10 * digit_val c3 + digit_val c4)
  = String c1 (String c2 (String c3 (String c4 ""))).
Proof.
  intros H1 H2 H3 H4.
  destruct (isdigit_val _ H1) as [B1 E1], (isdigit_val _ H2) as [B2 E2],
    (isdigit_val _ H3) as [B3 E3], (isdigit_val _ H4) as [B4 E4].
  set (y := 1000 * digit_val c1 + 100 * digit_val c2 + 10 * digit_val c3 + digit_val c4).
  unfold pad4, pad2.
  rewrite (digit_char_mod (y / 1000)), (digit_char_mod (y / 100)),
    (digit_char_mod (y / 10)), (digit_char_mod y).
  replace ((y / 1000) mod 10) with (digit_val c1)
    by (unfold y; Z.div_mod_to_equations; lia).
  replace ((y / 100) mod 10) with (digit_val c2)
    by (unfold y; Z.div_mod_to_equations; lia).
  replace ((y / 10) mod 10) with (digit_val c3)
    by (unfold y; Z.div_mod_to_equations; lia).
  replace (y mod 10) with (digit_val c4)
    by (unfold y; Z.div_mod_to_equations; lia).
  now rewrite E1, E2, E3, E4.
Qed.

(** What [strptime] has read, [strftime] writes back. *)
Lemma strftime_strptime (s : string) (d : date) :
  strptime s = Ok d -> strftime d = s.
Proof.
  unfold strptime.
  destruct s as [|d1 s]; [discriminate|]. destruct s as [|d2 s]; [discriminate|].
  destruct s as [|p1 s]; [discriminate|]. destruct s as [|m1 s]; [discriminate|].
  destruct s as [|m2 s]; [discriminate|]. destruct s as [|p2 s]; [discriminate|].
  destruct s as [|y1 s]; [discriminate|]. destruct s as [|y2 s]; [discriminate|].
  destruct s as [|y3 s]; [discriminate|]. destruct s as [|y4 s]; [discriminate|].
  destruct s; [|discriminate]. cbv zeta.
  set (dd := 10 * digit_val d1 + digit_val d2).
  set (mm := 10 * digit_val m1 + digit_val m2).
  set (yy := 1000 * digit_val y1 + 100 * digit_val y2 + 10 * digit_val y3 + digit_val y4).
  match goal with |- (if ?c then _ else _) = _ -> _ => destruct c eqn:Hc end;
    [|discriminate].
  do 4 (apply andb_true_iff in Hc; destruct Hc as [Hc _]).
  apply andb_true_iff in Hc. destruct Hc as [Hc Hp2].
  apply andb_true_iff in Hc. destruct Hc as [Hc Hp1].
  apply Ascii.eqb_eq in Hp1, Hp2. subst p1 p2.
  cbn [forallb] in Hc.
  do 8 (apply andb_true_iff in Hc; let H := fresh "Hd" in destruct Hc as [H Hc]).
  unfold new. destruct (fields_ok yy mm dd); [|discriminate].
  intros H. apply (f_equal (fun r => match r with Ok x => strftime x | Raise _ => "" end)) in H.
  rewrite <- H. unfold strftime. cbn [year month day]. unfold dd, mm, yy.
  rewrite !pad2_digits, pad4_digits by assumption.
  reflexivity.
Qed.

(** What [strftime] has written, [strptime] reads back. *)
Lemma strptime_strftime (d : date) : is_date d -> strptime (strftime d) = Ok d.
Proof.
  intros Hd. pose proof (is_date_year Hd) as Hy.
  destruct (is_date_calendar Hd) as [Hm Hday].
  pose proof (days_in_month_pos (year d) Hm) as Hdim.
  unfold MINYEAR, MAXYEAR in Hy.
  unfold strftime, pad4, pad2, strptime. cbn [String.append forallb].
  repeat match goal with
         | |- context [digit_val (digit_char ?n)] =>
             rewrite (proj2 (digit_char_val n))
         | |- context [Str.isdigit (digit_char ?n)] =>
             rewrite (proj1 (digit_char_val n))
         end.
  replace (10 * ((day d / 10) mod 10) + day d mod 10) with (day d)
    by (Z.div_mod_to_equations; lia).
  replace (10 * ((month d / 10) mod 10) + month d mod 10) with (month d)
    by (Z.div_mod_to_equations; lia).
  replace (1000 * ((year d / 1000) mod 10) + 100 * ((year d / 100) mod 10)
           + 10 * ((year d / 10) mod 10) + year d mod 10) with (year d)
    by (Z.div_mod_to_equations; lia).
  cbn [andb Ascii.eqb Bool.eqb].
  replace ((1 <=? day d) && (day d <=? 31) && (1 <=? month d) && (month d <=? 12))%bool
    with true
    by (symmetry; rewrite !andb_true_iff, !Z.leb_le; lia).
  unfold new. unfold is_date in Hd. rewrite Hd. now destruct d.
Qed.

(** The pattern of the setter matches what [strftime] writes. *)
Lemma pattern_matches_strftime (d : date) :
  re.match_ Birthday.PATTERN (strftime d) = true.
Proof.
  unfold strftime, pad4, pad2, re.match_, Birthday.PATTERN.
  cbn [String.append re.exec re.rep Nat.pred].
  repeat match goal with
         | |- context [Str.isdigit (digit_char ?n)] =>
             rewrite (proj1 (digit_char_val n))
         end.
  reflexivity.
Qed.

Lemma strptime_cases (s : string) :
  (exists d, strptime s = Ok d /\ is_date d) \/ strptime s = Raise ValueError.
Proof.
  unfold strptime.
  do 10 (destruct s as [|? s]; [now right|]).
  destruct s; [|now right]. cbv zeta.
  match goal with |- context [if ?c then _ else _] => destruct c end; [|now right].
  unfold new.
  match goal with |- context [fields_ok ?y ?m ?d] => destruct (fields_ok y m d) eqn:Hf end;
    [|now right].
  left. eexists. split; [reflexivity | exact Hf].
Qed.

Lemma set_value_cases (today : date) (s : string) (self : Birthday.t) :
  (exists d,
     Birthday.set_value today s self = (Ok tt, birthday_on d)
     /\ strptime s = Ok d /\ is_date d /\ ltb today d = false)
  \/ Birthday.set_value today s self = (Raise ValueError, self).
Proof.
  unfold Birthday.set_value.
  destruct (re.match_ Birthday.PATTERN s); cbn [negb]; [|now right].
  destruct (strptime_cases s) as [(d & Hp & Hd) | Hp]; rewrite Hp; [|now right].
  destruct (ltb today d) eqn:Hl; [now right|]. left. exists d. auto.
Qed.

End Birthdays.

Section BirthdayProperties.

Import datetime.
Local Open Scope Z_scope.

(** X16. Assigning a birthday is all or nothing: either the string is a date
    [dd.mm.yyyy] of the calendar that is not after today, and that date is
    stored; or the setter raises [ValueError] and the birthday stays what it
    was. *)
Theorem birthday_assignment_all_or_nothing (today : date) (s : string)
    (self : Birthday.t) :
  (exists d,
     Birthday.set_value today s self = (Ok tt, birthday_on d)
     /\ is_date d /\ ltb today d = false /\ strftime d = s)
  \/ Birthday.set_value today s self = (Raise ValueError, self).
Proof.
  destruct (set_value_cases today s self) as [(d & H & Hp & Hd & Hl) | H];
    [left | now right].
  exists d. repeat split; auto. now apply strftime_strptime.
Qed.

Lemma Birthday_init_set (today : date) (s : string) :
  s <> "" ->
  Birthday.__init__ today (Some s)
  = match Birthday.set_value today s no_birthday with
    | (Ok _, self) => Ok self
    | (Raise e, _) => Raise e
    end.
Proof.
  intros H. apply String.eqb_neq in H. unfold Birthday.__init__. now rewrite H.
Qed.

(** X17. The text of a date is a birthday: for a date of the calendar with a
    year of four digits that is not after today, [Birthday] of its text
    [dd.mm.yyyy] succeeds and stores that very date, and [str] of the
    birthday gives the text back. *)
Theorem birthday_of_date_text (today d : date) :
  is_date d -> 1000 <= year d -> ltb today d = false ->
  Birthday.__init__ today (Some (strftime d)) = Ok (birthday_on d)
  /\ rbind (Birthday.__init__ today (Some (strftime d))) Birthday.__str__
     = Ok ("Birthday: " ++ strftime d)%string.
Proof.
  intros Hd _ Hl.
  assert (Hs : strftime d <> ""%string) by (unfold strftime, pad2; discriminate).
  assert (Hi : Birthday.__init__ today (Some (strftime d)) = Ok (birthday_on d)).
  { rewrite (Birthday_init_set today Hs). unfold Birthday.set_value.
    rewrite pattern_matches_strftime, (strptime_strftime Hd), Hl. reflexivity. }
  split; [exact Hi|]. rewrite Hi. reflexivity.
Qed.

Lemma birthday_of_date_text_witness :
  Birthday.__init__ (Build_date 2024 1 10) (Some "15.06.1990"%string)
    = Ok (birthday_on (Build_date 1990 6 15))
  /\ rbind (Birthday.__init__ (Build_date 2024 1 10) (Some "15.06.1990"%string))
       Birthday.__str__
     = Ok "Birthday: 15.06.1990"%string.
Proof.
  apply (@birthday_of_date_text (Build_date 2024 1 10) (Build_date 1990 6 15));
    [reflexivity | cbn; lia | reflexivity].
Defined.

(** From one year to the next the same month and day is at most 366 days
    on. *)
Lemma ymd2ord_next_year (y m d : Z) :
  1 <= m <= 12 -> _ymd2ord (y + 1) m d - _ymd2ord y m d <= 366.
Proof.
  intros Hm. unfold _ymd2ord, _days_before_month.
  rewrite days_before_year_succ.
  pose proof (month_cases Hm) as H.
  repeat (destruct H as [H | H]); rewrite H;
    destruct (_is_leap y), (_is_leap (y + 1)); cbn -[Z.add _days_before_year]; lia.
Qed.

(** X18. [days_to_birthday] with a birthday set either raises [ValueError] or
    returns a count between 0 and 365; it never returns [None], a negative
    count or a count of a year or more. *)
Theorem days_to_birthday_range (today v : date) :
  is_date today ->
  Birthday.days_to_birthday today (birthday_on v) = Raise ValueError
  \/ exists k,
       Birthday.days_to_birthday today (birthday_on v) = Ok (Some k)
       /\ 0 <= k <= 365.
Proof.
  intros Ht. pose proof (is_date_calendar Ht) as Hc.
  rewrite days_to_birthday_set.
  destruct (fields_ok (year today) (month v) (day v)) eqn:Hthis; [|now left].
  pose proof Hthis as Hthis'. apply fields_ok_iff in Hthis'.
  destruct Hthis' as (_ & Hm & Hd).
  assert (Hc0 : calendar_day (occurrence (year today) v)) by (split; assumption).
  destruct (ltb (occurrence (year today) v) today) eqn:E.
  - destruct (fields_ok (year today + 1) (month v) (day v)) eqn:Hnext; [|now left].
    right. eexists. split; [reflexivity|].
    apply fields_ok_iff in Hnext. destruct Hnext as (_ & _ & Hd1).
    assert (Hc1 : calendar_day (occurrence (year today + 1) v)) by (split; assumption).
    pose proof (toordinal_lt Hc0 Hc E) as Hlt.
    assert (Hge : ltb today (occurrence (year today + 1) v) = true).
    { apply ltb_iff. cbn. lia. }
    pose proof (toordinal_lt Hc Hc1 Hge) as Hlt1.
    pose proof (ymd2ord_next_year (year today) (day v) Hm) as Hstep.
    unfold sub_days, toordinal, occurrence in *. cbn [year month day] in *. lia.
  - right. eexists. split; [reflexivity|].
    pose proof (toordinal_le Hc Hc0 E) as Hle.
    destruct Hc as [Hmt Hdt].
    pose proof (day_of_year_bounds (year today) Hm Hd) as B0.
    pose proof (day_of_year_bounds (year today) Hmt Hdt) as Bt.
    unfold sub_days, toordinal, _ymd2ord, occurrence in *. cbn [year month day] in *.
    destruct (_is_leap (year today)); lia.
Qed.

Lemma days_to_birthday_range_witness :
  Birthday.days_to_birthday (Build_date 2024 1 2) (birthday_on (Build_date 1990 1 1))
    = Raise ValueError
  \/ exists k,
       Birthday.days_to_birthday (Build_date 2024 1 2) (birthday_on (Build_date 1990 1 1))
       = Ok (Some k)
       /\ 0 <= k <= 365.
Proof.
  apply (@days_to_birthday_range (Build_date 2024 1 2) (Build_date 1990 1 1)).
  reflexivity.
Defined.

End BirthdayProperties.

Lemma record_valid_kept_witness :
  record_valid (snd (Record.add_phone "+380501234567" (fresh_record "ann" "111111111"))).
Proof.
  apply (proj1 (proj2 record_valid_kept)). repeat constructor.
Defined.
